(** * Pleading-Markdown-Converter: text extraction and LLM conversion core

    A shallow embedding of [src/utils/fileProcessing.ts] ([FileProcessor])
    and [src/utils/llmProviders.ts] ([LLM_PROVIDERS], [LLMService]),
    with the two callers that use them: [handleFiles] and
    [validateFileForPDF] of [src/components/FileUpload.tsx], and
    [isConfigured] and [handleConvert] of [src/App.tsx].

    - JavaScript strings are Rocq [string]s (ASCII characters).
    - JavaScript values read from JSON responses are the type [jsval].
    - Asynchronous code ([async]/[await], [try]/[catch], [throw]) is a
      state-and-exception monad [M] over a [world] that records the
      observable effects (file reads, [fetch] requests, [console.warn])
      and a millisecond clock read by [Date.now()].
    - The browser and library services the code calls (FileReader, mammoth,
      pdf.js, fetch) are oracles: Section variables that are arbitrary
      functions, so every theorem holds for every behaviour of them. *)

From Stdlib Require Import String Ascii List ZArith QArith Bool Lia.
Import ListNotations.
Open Scope string_scope.
Set Warnings "-register-all".

(* ------------------------------------------------------------------ *)
(** ** JavaScript string primitives *)

Module JsString.

(** White space removed by [String.prototype.trim] (ASCII part):
    tab, line feed, vertical tab, form feed, carriage return, space. *)
Definition is_ws (c : ascii) : bool :=
  let n := nat_of_ascii c in
  ((9 <=? n) && (n <=? 13))%nat || (n =? 32)%nat.

Fixpoint ltrim (s : string) : string :=
  match s with
  | EmptyString => EmptyString
  | String c r => if is_ws c then ltrim r else s
  end.

Fixpoint rtrim (s : string) : string :=
  match s with
  | EmptyString => EmptyString
  | String c r =>
      let r' := rtrim r in
      match r' with
      | EmptyString => if is_ws c then EmptyString else String c EmptyString
      | _ => String c r'
      end
  end.

(** [s.trim()] *)
Definition trim (s : string) : string := rtrim (ltrim s).

(** [s.toLowerCase()] on ASCII letters. *)
Definition lower_char (c : ascii) : ascii :=
  let n := nat_of_ascii c in
  if ((65 <=? n) && (n <=? 90))%nat then ascii_of_nat (n + 32) else c.

Fixpoint toLowerCase (s : string) : string :=
  match s with
  | EmptyString => EmptyString
  | String c r => String (lower_char c) (toLowerCase r)
  end.

(** [s.endsWith(suf)] *)
Definition endsWith (s suf : string) : bool :=
  (String.length suf <=? String.length s)%nat &&
  String.eqb (substring (String.length s - String.length suf)
                        (String.length suf) s) suf.

Fixpoint has_char (c : ascii) (s : string) : bool :=
  match s with
  | EmptyString => false
  | String d r => Ascii.eqb c d || has_char c r
  end.

(** [s.split('.').pop()]: the text after the last ['.'], or the whole
    string when it contains no ['.'] ([split] never yields an empty
    array, so [pop()] always returns a string). *)
Fixpoint split_dot_pop (s : string) : string :=
  match s with
  | EmptyString => EmptyString
  | String c r =>
      if Ascii.eqb c "."%char then split_dot_pop r
      else if has_char "."%char r then split_dot_pop r
      else s
  end.

(** Decimal digits of a non-negative integer. *)
Definition digit (n : Z) : ascii := ascii_of_nat (48 + Z.to_nat n).

Fixpoint digits_aux (fuel : nat) (n : Z) (acc : string) : string :=
  match fuel with
  | O => acc
  | S f =>
      let acc' := String (digit (n mod 10)) acc in
      if (n <? 10)%Z then acc' else digits_aux f (n / 10) acc'
  end.

Definition Z_to_string (n : Z) : string :=
  let a := Z.abs n in
  let ds := digits_aux (S (Z.to_nat (Z.log2 a))) a EmptyString in
  if (n <? 0)%Z then "-" ++ ds else ds.

Definition nat_to_string (n : nat) : string := Z_to_string (Z.of_nat n).

Fixpoint frac_digits (fuel : nat) (rem den : Z) : string :=
  match fuel with
  | O => EmptyString
  | S f =>
      if (rem =? 0)%Z then EmptyString
      else String (digit (rem * 10 / den)) (frac_digits f (rem * 10 mod den) den)
  end.

(** [String(x)] for a number [x]: the decimal expansion of the rational
    value, integer part then the fractional digits without trailing
    zeros (exact for the terminating decimals that numbers denote here,
    cut after 20 fractional digits otherwise). *)
Definition Q_to_string (q : Q) : string :=
  let a := Z.abs (Qnum q) in
  let d := Zpos (Qden q) in
  let ip := Z_to_string (a / d) in
  let fp := frac_digits 20 (a mod d) d in
  let body := match fp with EmptyString => ip | _ => ip ++ "." ++ fp end in
  if (Qnum q <? 0)%Z then "-" ++ body else body.

End JsString.

Import JsString.

(* ------------------------------------------------------------------ *)
(** ** JavaScript values and exceptions *)

Inductive jsval : Type :=
| JUndef
| JNull
| JBool (b : bool)
| JNum (q : Q)
| JNaN
| JStr (s : string)
| JArr (l : list jsval)
| JObj (kvs : list (string * jsval)).

(** [String(v)] *)
Fixpoint js_String (v : jsval) : string :=
  match v with
  | JUndef => "undefined"
  | JNull => "null"
  | JBool b => if b then "true" else "false"
  | JNum q => Q_to_string q
  | JNaN => "NaN"
  | JStr s => s
  | JArr l =>
      (* [Array.prototype.join(',')]: null and undefined become empty *)
      (fix join (l : list jsval) : string :=
         match l with
         | [] => EmptyString
         | [x] => match x with JUndef | JNull => EmptyString | _ => js_String x end
         | x :: r =>
             (match x with JUndef | JNull => EmptyString | _ => js_String x end)
               ++ "," ++ join r
         end) l
  | JObj _ => "[object Object]"
  end.

(** JavaScript truthiness. *)
Definition truthy (v : jsval) : bool :=
  match v with
  | JUndef | JNull | JNaN => false
  | JBool b => b
  | JNum q => negb (Qeq_bool q 0)
  | JStr s => negb (String.eqb s EmptyString)
  | JArr _ | JObj _ => true
  end.

(** A thrown value: an [Error] (including [TypeError] and [SyntaxError])
    carrying its [message], or any other thrown value. *)
Inductive exn : Type :=
| JsError (message : string)
| NonError (v : jsval).

(** [error instanceof Error ? error.message : dflt] *)
Definition error_message (e : exn) (dflt : string) : string :=
  match e with
  | JsError m => m
  | NonError _ => dflt
  end.

Inductive result (A : Type) : Type :=
| Ok (a : A)
| Throw (e : exn).
Arguments Ok {A} a.
Arguments Throw {A} e.

Fixpoint lookup_key (k : string) (kvs : list (string * jsval)) : option jsval :=
  match kvs with
  | [] => None
  | (k', v) :: r =>
      match lookup_key k r with
      | Some w => Some w                       (* the last binding wins *)
      | None => if String.eqb k k' then Some v else None
      end
  end.

(** Property access [v.k] and [v[k]]: reading a property of [undefined]
    or [null] throws a [TypeError]. *)
Definition get (v : jsval) (k : string) : result jsval :=
  match v with
  | JUndef => Throw (JsError ("Cannot read properties of undefined (reading '" ++ k ++ "')"))
  | JNull => Throw (JsError ("Cannot read properties of null (reading '" ++ k ++ "')"))
  | JObj kvs => Ok (match lookup_key k kvs with Some w => w | None => JUndef end)
  | _ => Ok JUndef
  end.

(** Index access [v[n]]. *)
Definition idx (v : jsval) (n : nat) : result jsval :=
  match v with
  | JArr l => Ok (nth n l JUndef)
  | JStr s =>
      Ok (if (n <? String.length s)%nat then JStr (substring n 1 s) else JUndef)
  | _ => get v (nat_to_string n)
  end.

(** Optional chaining [v?.k]. *)
Definition opt_get (v : jsval) (k : string) : result jsval :=
  match v with
  | JUndef | JNull => Ok JUndef
  | _ => get v k
  end.

(** Nullish coalescing [v ?? d]. *)
Definition nullish (v d : jsval) : jsval :=
  match v with
  | JUndef | JNull => d
  | _ => v
  end.

(** Binary [+]: string concatenation when either side is a string or an
    object, numeric addition otherwise. *)
Definition to_number (v : jsval) : option Q :=
  match v with
  | JNum q => Some q
  | JBool b => Some (if b then 1 else 0)%Q
  | JNull => Some 0%Q
  | _ => None
  end.

Definition js_add (a b : jsval) : jsval :=
  match a, b with
  | (JStr _ | JArr _ | JObj _), _ | _, (JStr _ | JArr _ | JObj _) =>
      JStr (js_String a ++ js_String b)
  | _, _ =>
      match to_number a, to_number b with
      | Some x, Some y => JNum (x + y)
      | _, _ => JNaN
      end
  end.

(* ------------------------------------------------------------------ *)
(** ** Data model ([src/types], [src/utils/llmProviders.ts]) *)

(** [interface LLMProvider] *)
Record LLMProvider : Type := {
  id : string;
  name : string;
  baseUrl : string;
  requiresApiKey : bool;
  models : list string
}.

(** [interface ConversionExample] *)
Record ConversionExample : Type := {
  ex_id : string;
  ex_name : string;
  originalText : string;
  convertedMarkdown : string;
  pleadingType : string
}.

(** [interface ConversionSettings]; [number] fields are rationals, the two
    optional fields are [option string]. *)
Record ConversionSettings : Type := {
  provider : string;
  model : string;
  apiKey : string;
  temperature : Q;
  maxTokens : Q;
  useExamples : bool;
  selectedExamples : list string;
  customPrompt : string;
  customBaseUrl : option string;
  customModel : option string
}.

(** A browser [File]: its [name], declared MIME [type] and byte [size].
    Its contents are only seen through the reader oracles below. *)
Record File : Type := {
  fname : string;
  ftype : string;
  fsize : Z
}.

(** An outbound [fetch(url, {method, headers, body: JSON.stringify(body)})];
    the body is kept as the value passed to [JSON.stringify]. *)
Record request : Type := {
  url : string;
  method : string;
  headers : list (string * string);
  body : jsval
}.

(** A [Response]: [response.ok] is a 2xx status; [response.json()] either
    parses to a value or rejects with a [SyntaxError] message;
    [response.text()] is the raw body. *)
Record response : Type := {
  status : Z;
  statusText : string;
  json_body : string + jsval;
  text_body : string
}.

Definition ok (r : response) : bool := (200 <=? status r)%Z && (status r <=? 299)%Z.

(** What [await fetch(...)] does: reject, or resolve to a response, after
    some milliseconds. *)
Inductive fetch_outcome : Type :=
| FetchReject (e : exn)
| FetchResolve (r : response).

(** Which extractor read the file. *)
Inductive reader_kind : Type := ReadText | ReadDocx | ReadPdf.

(** Observable effects, most recent first in the trace. *)
Inductive event : Type :=
| EvRead (k : reader_kind)
| EvFetch (req : request)
| EvWarn (msg : string).

Record world : Type := {
  trace : list event;
  clock : Z
}.

(* ------------------------------------------------------------------ *)
(** ** The async/exception monad *)

Definition M (A : Type) : Type := world -> result A * world.

Definition ret {A} (a : A) : M A := fun w => (Ok a, w).

Definition bind {A B} (m : M A) (k : A -> M B) : M B :=
  fun w => match m w with
           | (Ok a, w') => k a w'
           | (Throw e, w') => (Throw e, w')
           end.

Definition throw {A} (e : exn) : M A := fun w => (Throw e, w).

Definition lift {A} (r : result A) : M A := fun w => (r, w).

(** [try { m } catch (e) { h(e) }] *)
Definition try_catch {A} (m : M A) (h : exn -> M A) : M A :=
  fun w => match m w with
           | (Ok a, w') => (Ok a, w')
           | (Throw e, w') => h e w'
           end.

Definition emit (ev : event) : M unit :=
  fun w => (Ok tt, {| trace := ev :: trace w; clock := clock w |}).

(** [Date.now()] *)
Definition now : M Z := fun w => (Ok (clock w), w).

Notation "'let!' x := c 'in' k" := (bind c (fun x => k))
  (at level 200, x name, c at level 100, k at level 200).

(** [new Error(m)] thrown *)
Definition fail {A} (m : string) : M A := throw (JsError m).

(** JS [a || b] on optional strings: an absent or empty string is falsy. *)
Definition or_str (a : option string) (b : string) : string :=
  match a with
  | Some s => if String.eqb s EmptyString then b else s
  | None => b
  end.

(* ------------------------------------------------------------------ *)
(** ** Provider registry *)

Definition LLM_PROVIDERS : list LLMProvider := [
  {| id := "local"; name := "Local/Custom API";
     baseUrl := "http://localhost:11434/v1"; requiresApiKey := false;
     models := ["custom"] |};
  {| id := "openai"; name := "OpenAI";
     baseUrl := "https://api.openai.com/v1"; requiresApiKey := true;
     models := ["gpt-4o"; "gpt-4o-mini"; "gpt-4-turbo"; "gpt-3.5-turbo"] |};
  {| id := "anthropic"; name := "Anthropic Claude";
     baseUrl := "https://api.anthropic.com/v1"; requiresApiKey := true;
     models := ["claude-3-5-sonnet-20241022"; "claude-3-haiku-20240307";
                "claude-3-opus-20240229"] |};
  {| id := "groq"; name := "Groq";
     baseUrl := "https://api.groq.com/openai/v1"; requiresApiKey := true;
     models := ["llama3-8b-8192"; "llama3-70b-8192"; "mixtral-8x7b-32768";
                "gemma-7b-it"] |}
].

(** [LLM_PROVIDERS.find(p => p.id === pid)] *)
Definition find_provider (pid : string) : option LLMProvider :=
  find (fun p => String.eqb (id p) pid) LLM_PROVIDERS.

(* ------------------------------------------------------------------ *)
(** ** Prompt builder ([LLMService.buildPrompt]) *)

Definition nl : string := String (ascii_of_nat 10) EmptyString.
Definition dq : string := String (ascii_of_nat 34) EmptyString.

Definition default_template : string :=
  "You are an expert legal document processor specializing in Singapore civil litigation. Convert the following legal pleading to clean, well-structured markdown format." ++ nl ++ nl ++
  "CRITICAL REQUIREMENTS:" ++ nl ++
  "1. Preserve the document's legal structure and hierarchy" ++ nl ++
  "2. Convert numbered paragraphs to proper markdown format" ++ nl ++
  "3. Format case citations appropriately with proper emphasis" ++ nl ++
  "4. Maintain legal formatting conventions (e.g., party names, case references)" ++ nl ++
  "5. Ensure headers and sections are properly structured using markdown headers (# ## ###)" ++ nl ++
  "6. Convert tables and lists to markdown format" ++ nl ++
  "7. Preserve important legal numbering and cross-references" ++ nl ++
  "8. Focus on the substantive legal content only" ++ nl ++ nl ++
  "FORMATTING GUIDELINES:" ++ nl ++
  "- Use # for main document title" ++ nl ++
  "- Use ## for major sections (e.g., " ++ dq ++ "STATEMENT OF CLAIM" ++ dq ++ ", "
    ++ dq ++ "PRAYER FOR RELIEF" ++ dq ++ ")" ++ nl ++
  "- Use ### for subsections" ++ nl ++
  "- Use numbered lists for legal paragraphs (1. 2. 3.)" ++ nl ++
  "- Use **bold** for party names, case names, and important legal terms" ++ nl ++
  "- Use *italics* for case citations and legal references" ++ nl ++
  "- Use > for quoted text or legal provisions" ++ nl ++
  "- Preserve the logical flow and legal reasoning structure" ++ nl ++ nl.

(** The separator line before the document text and the closing
    instruction after it, shared by both branches. *)
Definition convert_separator : string :=
  nl ++ nl ++ "Now convert this legal pleading:" ++ nl ++ nl.

Definition convert_closing : string :=
  nl ++ nl ++ "Provide only the clean markdown conversion:".

(** The [examples.forEach] loop, with [index] counted from 0. *)
Fixpoint examples_block (index : nat) (examples : list ConversionExample) : string :=
  match examples with
  | [] => EmptyString
  | ex :: rest =>
      ("Example " ++ nat_to_string (index + 1) ++ " (" ++ pleadingType ex ++ "):" ++ nl)
      ++ ("Original:" ++ nl ++ originalText ex ++ nl ++ nl)
      ++ ("Converted:" ++ nl ++ convertedMarkdown ex ++ nl ++ nl)
      ++ examples_block (S index) rest
  end.

Definition buildPrompt (text : string) (examples : list ConversionExample)
    (customPrompt : option string) : string :=
  match customPrompt with
  | Some cp =>
      if negb (String.eqb (trim cp) EmptyString) then
        trim cp ++ convert_separator ++ text ++ convert_closing
      else
        default_template
        ++ (match examples with
            | [] => EmptyString
            | _ => nl ++ "Here are examples of good conversions:" ++ nl ++ nl
                   ++ examples_block 0 examples
            end)
        ++ convert_separator ++ text ++ convert_closing
  | None =>
      default_template
      ++ (match examples with
          | [] => EmptyString
          | _ => nl ++ "Here are examples of good conversions:" ++ nl ++ nl
                 ++ examples_block 0 examples
          end)
      ++ convert_separator ++ text ++ convert_closing
  end.

(* ------------------------------------------------------------------ *)
(** ** LLM client ([LLMService]) *)

(** What a provider call returns: [{content, tokensUsed}]. *)
Record provider_response : Type := {
  content : jsval;
  tokensUsed : jsval
}.

(** [convertToMarkdown]'s result object: [{success: true, markdown,
    tokensUsed, processingTime}] or [{success: false, error,
    processingTime}]. *)
Inductive conversion_result : Type :=
| ConvOk (markdown tokens : jsval) (processingTime : Z)
| ConvErr (error : string) (processingTime : Z).

(** [processText]'s result object: [{success: true, content, tokensUsed,
    processingTime}] or [{success: false, error, processingTime}]. *)
Inductive process_result : Type :=
| ProcOk (content tokens : jsval) (processingTime : Z)
| ProcErr (error : string) (processingTime : Z).

Definition getM (v : jsval) (k : string) : M jsval := lift (get v k).
Definition idxM (v : jsval) (n : nat) : M jsval := lift (idx v n).
Definition opt_getM (v : jsval) (k : string) : M jsval := lift (opt_get v k).

(** [await response.json()] *)
Definition resp_json (r : response) : M jsval :=
  match json_body r with
  | inl msg => throw (JsError msg)
  | inr v => ret v
  end.

(** [messages: [{ role: 'user', content: prompt }]] *)
Definition user_messages (prompt : string) : jsval :=
  JArr [JObj [("role", JStr "user"); ("content", JStr prompt)]].

(** Body of the chat-completions requests (OpenAI, Groq, local). *)
Definition chat_body (mdl prompt : string) (s : ConversionSettings) : jsval :=
  JObj [("model", JStr mdl); ("messages", user_messages prompt);
        ("temperature", JNum (temperature s)); ("max_tokens", JNum (maxTokens s))].

Section LLMService.

(** The network: the answer to each request, after some milliseconds. *)
Variable net : request -> nat * fetch_outcome.

(** [await fetch(url, init)] *)
Definition fetch (req : request) : M response :=
  fun w =>
    let (d, o) := net req in
    let w' := {| trace := EvFetch req :: trace w; clock := clock w + Z.of_nat d |} in
    match o with
    | FetchReject e => (Throw e, w')
    | FetchResolve r => (Ok r, w')
    end.

(** [choices[0].message.content] and [usage?.total_tokens ?? 0] *)
Definition read_chat_completion (data : jsval) : M provider_response :=
  let! ch := getM data "choices" in
  let! c0 := idxM ch 0 in
  let! msg := getM c0 "message" in
  let! c := getM msg "content" in
  let! u := getM data "usage" in
  let! t := opt_getM u "total_tokens" in
  ret {| content := c; tokensUsed := nullish t (JNum 0) |}.

(** [throw new Error(error.error?.message || dflt)] *)
Definition fail_with_error_body (r : response) (dflt : string) : M provider_response :=
  let! err := resp_json r in
  let! e1 := getM err "error" in
  let! m := opt_getM e1 "message" in
  fail (if truthy m then js_String m else dflt).

Definition callOpenAI (prompt : string) (s : ConversionSettings) (p : LLMProvider)
    : M provider_response :=
  if String.eqb (apiKey s) EmptyString then fail "OpenAI API key is required"
  else
    let! r := fetch {| url := baseUrl p ++ "/chat/completions";
                       method := "POST";
                       headers := [("Content-Type", "application/json");
                                   ("Authorization", "Bearer " ++ apiKey s)];
                       body := chat_body (model s) prompt s |} in
    if negb (ok r) then fail_with_error_body r "OpenAI API request failed"
    else
      let! data := resp_json r in
      read_chat_completion data.

Definition callAnthropic (prompt : string) (s : ConversionSettings) (p : LLMProvider)
    : M provider_response :=
  if String.eqb (apiKey s) EmptyString then fail "Anthropic API key is required"
  else
    let! r := fetch {| url := baseUrl p ++ "/messages";
                       method := "POST";
                       headers := [("Content-Type", "application/json");
                                   ("x-api-key", apiKey s);
                                   ("anthropic-version", "2023-06-01")];
                       body := JObj [("model", JStr (model s));
                                     ("messages", user_messages prompt);
                                     ("max_tokens", JNum (maxTokens s));
                                     ("temperature", JNum (temperature s))] |} in
    if negb (ok r) then fail_with_error_body r "Anthropic API request failed"
    else
      let! data := resp_json r in
      let! ct := getM data "content" in
      let! c0 := idxM ct 0 in
      let! c := getM c0 "text" in
      let! u := getM data "usage" in
      let! i := opt_getM u "input_tokens" in
      let! u' := getM data "usage" in
      let! o := opt_getM u' "output_tokens" in
      ret {| content := c;
             tokensUsed := js_add (nullish i (JNum 0)) (nullish o (JNum 0)) |}.

Definition callGroq (prompt : string) (s : ConversionSettings) (p : LLMProvider)
    : M provider_response :=
  if String.eqb (apiKey s) EmptyString then fail "Groq API key is required"
  else
    let! r := fetch {| url := baseUrl p ++ "/chat/completions";
                       method := "POST";
                       headers := [("Content-Type", "application/json");
                                   ("Authorization", "Bearer " ++ apiKey s)];
                       body := chat_body (model s) prompt s |} in
    if negb (ok r) then fail_with_error_body r "Groq API request failed"
    else
      let! data := resp_json r in
      read_chat_completion data.

(** The URL and model name [callCustomAPI] resolves:
    [settings.customBaseUrl || provider.baseUrl] and
    [settings.customModel || 'custom']. *)
Definition custom_base (s : ConversionSettings) (p : LLMProvider) : string :=
  or_str (customBaseUrl s) (baseUrl p).

Definition custom_model (s : ConversionSettings) : string :=
  or_str (customModel s) "custom".

Definition custom_request (prompt : string) (s : ConversionSettings) (p : LLMProvider)
    : request :=
  {| url := custom_base s p ++ "/chat/completions";
     method := "POST";
     headers := [("Content-Type", "application/json")];
     body := chat_body (custom_model s) prompt s |}.

Definition callCustomAPI (prompt : string) (s : ConversionSettings) (p : LLMProvider)
    : M provider_response :=
  if String.eqb (custom_base s p) EmptyString then
    fail "Custom base URL is required for local LLM"
  else
    let! r := fetch (custom_request prompt s p) in
    if negb (ok r) then
      fail ("Local API request failed: " ++ Z_to_string (status r) ++ " "
            ++ statusText r ++ ". " ++ text_body r)
    else
      let! data := resp_json r in
      read_chat_completion data.

(** The provider lookup and dispatch, identical in [convertToMarkdown]
    and [processText]. *)
Definition callProvider (prompt : string) (s : ConversionSettings)
    : M provider_response :=
  match find_provider (provider s) with
  | None => fail ("Invalid LLM provider: " ++ provider s)
  | Some p =>
      if String.eqb (provider s) "openai" then callOpenAI prompt s p
      else if String.eqb (provider s) "anthropic" then callAnthropic prompt s p
      else if String.eqb (provider s) "groq" then callGroq prompt s p
      else callCustomAPI prompt s p
  end.

Definition convertToMarkdown (text : string) (s : ConversionSettings)
    (examples : list ConversionExample) : M conversion_result :=
  if String.eqb text EmptyString || String.eqb (trim text) EmptyString then
    ret (ConvErr "No text content provided for conversion" 0)
  else
    let! startTime := now in
    try_catch
      (let prompt := buildPrompt text examples (Some (customPrompt s)) in
       let! response := callProvider prompt s in
       let! t := now in
       ret (ConvOk (content response) (tokensUsed response) (t - startTime)))
      (fun error =>
         let! t := now in
         ret (ConvErr (error_message error "Unknown error occurred") (t - startTime))).

Definition processText (prompt : string) (s : ConversionSettings) : M process_result :=
  if String.eqb prompt EmptyString || String.eqb (trim prompt) EmptyString then
    ret (ProcErr "No prompt provided for text processing" 0)
  else
    let! startTime := now in
    try_catch
      (let! response := callProvider prompt s in
       let! t := now in
       ret (ProcOk (content response) (tokensUsed response) (t - startTime)))
      (fun error =>
         let! t := now in
         ret (ProcErr (error_message error "Unknown error occurred") (t - startTime))).

End LLMService.

(* ------------------------------------------------------------------ *)
(** ** File processing ([FileProcessor]) *)

(** [FileProcessor.formatFileSize] on an integer byte count.
    [Math.floor(Math.log(bytes) / Math.log(1024))] is the integer base-1024
    logarithm of [bytes >= 1], that is [log2 bytes / 10]; the division
    [bytes / Math.pow(1024, i)] is exact; [toFixed(2)] takes the nearest
    hundredth (the larger one on a tie); [parseFloat] and the string
    conversion then print that hundredth without trailing zeros; indexing
    [sizes] past its end gives [undefined]. *)
Definition sizes : list string := ["Bytes"; "KB"; "MB"; "GB"].

Definition formatFileSize (bytes : Z) : string :=
  if (bytes =? 0)%Z then "0 Bytes"
  else if (bytes <? 0)%Z then "Invalid size"
  else
    let k := 1024%Z in
    let i := (Z.log2 bytes / 10)%Z in
    let d := (k ^ i)%Z in
    let hundredths := ((200 * bytes + d) / (2 * d))%Z in
    Q_to_string (hundredths # 100) ++ " "
      ++ match nth_error sizes (Z.to_nat i) with
         | Some u => u
         | None => "undefined"
         end.

(** [DEFAULT_OPTIONS] *)
Definition maxFileSize : Z := (10 * 1024 * 1024)%Z.

Definition docx_mime : string :=
  "application/vnd.openxmlformats-officedocument.wordprocessingml.document".

Definition supportedTypes : list string := ["text/plain"; docx_mime; "application/pdf"].

Definition supportedExtensions : list string := [".txt"; ".docx"; ".pdf"].

(** [const fileExtension = '.' + file.name.split('.').pop()?.toLowerCase()] *)
Definition fileExtension (fileName : string) : string :=
  "." ++ toLowerCase (split_dot_pop fileName).

Definition size_message : string :=
  "File size must be less than " ++ formatFileSize maxFileSize.

Definition type_message : string := "Please upload a TXT, DOCX, or PDF file".

(** [FileProcessor.validateFile(file, DEFAULT_OPTIONS)]: synchronous,
    returns or throws. *)
Definition validateFile (file : File) : result unit :=
  if negb (maxFileSize =? 0)%Z && (maxFileSize <? fsize file)%Z then
    Throw (JsError size_message)
  else
    let isValidType := existsb (String.eqb (ftype file)) supportedTypes in
    let isValidExtension := existsb (String.eqb (fileExtension (fname file))) supportedExtensions in
    if negb isValidType && negb isValidExtension then Throw (JsError type_message)
    else Ok tt.

(** What the [FileReader] + mammoth pipeline yields for a word-processor
    file. *)
Inductive docx_read : Type :=
| DocxReadError                 (* reader.onerror *)
| DocxParseError                (* mammoth.extractRawText rejects *)
| DocxText (value : string).

(** What the [FileReader] + pdf.js pipeline yields for a PDF file: a read
    error, an empty buffer, a rejection of [getDocument], [getPage] or
    [getTextContent], or the [textContent.items] of every page in order. *)
Inductive pdf_read : Type :=
| PdfReadError
| PdfNoBuffer
| PdfThrows (e : exn)
| PdfPages (pages : list (list jsval)).

(** [.filter(item => item.str && typeof item.str === 'string')
     .map(item => item.str.trim()).filter(str => str.length > 0)] *)
Fixpoint page_strings (items : list jsval) : result (list string) :=
  match items with
  | [] => Ok []
  | item :: rest =>
      match get item "str" with
      | Throw e => Throw e
      | Ok v =>
          match page_strings rest with
          | Throw e => Throw e
          | Ok ss =>
              match v with
              | JStr s =>
                  if negb (String.eqb s EmptyString)
                     && negb (String.eqb (trim s) EmptyString)
                  then Ok (trim s :: ss) else Ok ss
              | _ => Ok ss
              end
          end
      end
  end.

(** The page loop: [fullText += pageText + '\n\n'] for each non-empty
    [pageText = strings.join(' ')]. *)
Fixpoint pages_text (fullText : string) (pages : list (list jsval)) : result string :=
  match pages with
  | [] => Ok fullText
  | items :: rest =>
      match page_strings items with
      | Throw e => Throw e
      | Ok ss =>
          let pageText := String.concat " " ss in
          if String.eqb pageText EmptyString then pages_text fullText rest
          else pages_text (fullText ++ pageText ++ nl ++ nl) rest
      end
  end.

Definition no_text_message : string :=
  "No readable text found in PDF. The PDF may not contain selectable text or may be image-based. Please ensure the PDF is OCRed and contains selectable text.".

(** The body of [reader.onload] in [extractTextFromPdf], with its
    [try]/[catch]. *)
Definition pdf_text (rd : pdf_read) : result string :=
  let wrap (e : exn) :=
    Throw (JsError ("Failed to extract text from PDF: " ++ error_message e "Unknown error"
                    ++ ". Please ensure the PDF contains selectable text.")) in
  match rd with
  | PdfReadError => Throw (JsError "Failed to read PDF file")
  | PdfNoBuffer => wrap (JsError "Failed to read file content")
  | PdfThrows e => wrap e
  | PdfPages pages =>
      match pages_text EmptyString pages with
      | Throw e => wrap e
      | Ok fullText =>
          let trimmedText := trim fullText in
          if String.eqb trimmedText EmptyString then wrap (JsError no_text_message)
          else Ok trimmedText
      end
  end.

Definition cleaning_instructions : string :=
  "You are a document processing expert. Clean the following extracted PDF text by:" ++ nl ++ nl ++
  "1. Remove headers, footers, page numbers, and watermarks" ++ nl ++
  "2. Remove repetitive formatting artifacts and OCR noise" ++ nl ++
  "3. Fix broken words and sentences caused by PDF extraction" ++ nl ++
  "4. Maintain the logical structure and flow of the legal document" ++ nl ++
  "5. Preserve important legal content, case citations, and references" ++ nl ++
  "6. Remove unnecessary whitespace and formatting characters" ++ nl ++
  "7. Ensure paragraphs flow naturally" ++ nl ++
  "8. Keep numbered sections and legal formatting intact" ++ nl ++
  "9. Remove any gibberish or corrupted text fragments" ++ nl ++
  "10. Ensure the text is coherent and readable" ++ nl ++ nl ++
  "IMPORTANT: Only return the cleaned text content. Do not add any explanations, comments, or markdown formatting." ++ nl ++ nl ++
  "Raw extracted text:" ++ nl.

Definition cleaningPrompt (rawText : string) : string :=
  cleaning_instructions ++ rawText ++ nl ++ nl ++ "Cleaned text:".

(** [result.content?.trim()] *)
Definition content_trim (c : jsval) : result (option string) :=
  match c with
  | JUndef | JNull => Ok None
  | JStr s => Ok (Some (trim s))
  | _ => Throw (JsError "result.content?.trim is not a function")
  end.

Definition warn_failed : string := "LLM text cleaning failed, using raw extracted text".
Definition warn_error : string := "LLM text cleaning error, using raw extracted text:".

Section FileProcessor.

(** [FileReader.readAsText]: the text, or [None] on [onerror]. *)
Variable read_text : File -> option string.
Variable read_docx : File -> docx_read.
Variable read_pdf : File -> pdf_read.
(** [LLMService.processText] as [cleanTextWithLLM] sees it: the model
    above ([processText net]) or any replacement of it (the tests replace
    it with [vi.spyOn]). *)
Variable processText : string -> ConversionSettings -> M process_result.

Definition extractTextFromTxt (file : File) : M string :=
  let! _ := emit (EvRead ReadText) in
  match read_text file with
  | None => fail "Failed to read text file"
  | Some text => ret text
  end.

Definition extractTextFromDocx (file : File) : M string :=
  let! _ := emit (EvRead ReadDocx) in
  match read_docx file with
  | DocxReadError => fail "Failed to read DOCX file"
  | DocxParseError => fail "Failed to extract text from DOCX file"
  | DocxText v => ret v
  end.

Definition extractTextFromPdf (file : File) : M string :=
  let! _ := emit (EvRead ReadPdf) in
  lift (pdf_text (read_pdf file)).

Definition cleanTextWithLLM (rawText : string) (s : ConversionSettings) : M string :=
  if String.eqb rawText EmptyString || String.eqb (trim rawText) EmptyString then
    fail "No text content to clean"
  else
    try_catch
      (let! result := processText (cleaningPrompt rawText) s in
       match result with
       | ProcOk c _ _ =>
           let! ct := lift (content_trim c) in
           match ct with
           | Some t =>
               if negb (String.eqb t EmptyString) then ret t
               else let! _ := emit (EvWarn warn_failed) in ret rawText
           | None => let! _ := emit (EvWarn warn_failed) in ret rawText
           end
       | ProcErr _ _ => let! _ := emit (EvWarn warn_failed) in ret rawText
       end)
      (fun _ => let! _ := emit (EvWarn warn_error) in ret rawText).

Definition extractText (file : File) (settings : option ConversionSettings) : M string :=
  let! _ := lift (validateFile file) in
  let fileType := ftype file in
  let fileName := toLowerCase (fname file) in
  try_catch
    (if String.eqb fileType "text/plain" || endsWith fileName ".txt" then
       extractTextFromTxt file
     else if String.eqb fileType docx_mime || endsWith fileName ".docx" then
       extractTextFromDocx file
     else if String.eqb fileType "application/pdf" || endsWith fileName ".pdf" then
       match settings with
       | None => fail "PDF processing requires LLM settings for text cleaning"
       | Some s =>
           let! rawText := extractTextFromPdf file in
           cleanTextWithLLM rawText s
       end
     else fail ("Unsupported file type: " ++ fileType))
    (fun error => fail ("Failed to extract text: " ++ error_message error "Unknown error")).

End FileProcessor.

(* ------------------------------------------------------------------ *)
(** ** Callers ([src/components/FileUpload.tsx], [src/App.tsx]) *)

(** [interface DocumentInfo], as [FileUpload] builds it (the two optional
    fields are left unset). *)
Record DocumentInfo : Type := {
  filename : string;
  size : Z;
  type : string;
  extractedText : string
}.

(** [settings.provider === 'local' || settings.apiKey.trim().length > 0],
    the same expression in [App] ([isConfigured]) and in
    [FileUpload.validateFileForPDF]. *)
Definition isConfigured (s : ConversionSettings) : bool :=
  String.eqb (provider s) "local" || negb (String.eqb (trim (apiKey s)) EmptyString).

Definition pdf_config_message : string :=
  "PDF processing requires LLM configuration. Please configure your LLM provider in settings first.".

(** [validateFileForPDF]: [false] is the [setError(...); return false]
    path, whose message is [pdf_config_message]. *)
Definition validateFileForPDF (settings : option ConversionSettings) (file : File) : bool :=
  let isPdf := String.eqb (ftype file) "application/pdf"
               || endsWith (toLowerCase (fname file)) ".pdf" in
  match settings with
  | Some s => if isPdf then isConfigured s else true
  | None => true
  end.

(** What [handleFiles] leaves behind: nothing ([return] on an empty file
    list), an error shown with [setError], or the document handed to
    [onFileProcessed]. *)
Inductive upload_outcome : Type :=
| UploadIgnored
| UploadError (error : string)
| UploadProcessed (doc : DocumentInfo).

Section FileUpload.

Variable read_text : File -> option string.
Variable read_docx : File -> docx_read.
Variable read_pdf : File -> pdf_read.
Variable processText : string -> ConversionSettings -> M process_result.

(** [FileUpload.handleFiles(files)], [files[0]] being the head of the
    list. *)
Definition handleFiles (settings : option ConversionSettings) (files : list File)
    : M upload_outcome :=
  match files with
  | [] => ret UploadIgnored
  | file :: _ =>
      if negb (validateFileForPDF settings file) then ret (UploadError pdf_config_message)
      else
        try_catch
          (let! extractedText := extractText read_text read_docx read_pdf processText file settings in
           ret (UploadProcessed {| filename := fname file; size := fsize file;
                                   type := ftype file; extractedText := extractedText |}))
          (fun err => ret (UploadError (error_message err "Failed to process file")))
  end.

End FileUpload.

(** [settings.useExamples ? examples.filter(ex => settings.selectedExamples.includes(ex.id)) : []] *)
Definition selectedExampleData (s : ConversionSettings) (examples : list ConversionExample)
    : list ConversionExample :=
  if useExamples s
  then filter (fun ex => existsb (String.eqb (ex_id ex)) (selectedExamples s)) examples
  else [].

(** What [handleConvert] leaves behind: nothing, the settings page
    opened ([setShowSettings(true)]), or a conversion result stored with
    [setConversionResult]. *)
Inductive convert_action : Type :=
| ConvertSkipped
| ConvertOpenSettings
| ConvertResult (r : conversion_result).

Section App.

Variable net : request -> nat * fetch_outcome.

(** [App.handleConvert], for the [document], [settings] and [examples]
    state it reads. *)
Definition handleConvert (document : option DocumentInfo) (s : ConversionSettings)
    (examples : list ConversionExample) : M convert_action :=
  match document with
  | None => ret (if negb (isConfigured s) then ConvertOpenSettings else ConvertSkipped)
  | Some doc =>
      if negb (isConfigured s) then ret ConvertOpenSettings
      else
        try_catch
          (let! result := convertToMarkdown net (extractedText doc) s
                            (selectedExampleData s examples) in
           ret (ConvertResult result))
          (fun error =>
             ret (ConvertResult (ConvErr (error_message error "Unknown error occurred") 0)))
  end.

End App.

(* ------------------------------------------------------------------ *)
(** ** Derived notions used in the statements *)

(** The branch conditions of [extractText]'s dispatch, in order. *)
Definition txt_branch (f : File) : bool :=
  String.eqb (ftype f) "text/plain" || endsWith (toLowerCase (fname f)) ".txt".

Definition docx_branch (f : File) : bool :=
  String.eqb (ftype f) docx_mime || endsWith (toLowerCase (fname f)) ".docx".

Definition pdf_branch (f : File) : bool :=
  String.eqb (ftype f) "application/pdf" || endsWith (toLowerCase (fname f)) ".pdf".

(** The file reaches the PDF branch of the dispatch. *)
Definition routes_to_pdf (f : File) : bool :=
  negb (txt_branch f) && negb (docx_branch f) && pdf_branch f.

(** The world after [extractTextFromPdf] has started the read. *)
Definition after_pdf_read (w : world) : world :=
  {| trace := EvRead ReadPdf :: trace w; clock := clock w |}.

(* ------------------------------------------------------------------ *)
(** ** Lemmas on the string primitives *)

Lemma ltrim_head_not_ws : forall s c r, ltrim s = String c r -> is_ws c = false.
Proof.
  induction s as [|c0 s IH]; simpl; intros c r H; [discriminate|].
  destruct (is_ws c0) eqn:E; [eauto|].
  injection H as <- <-; exact E.
Qed.

Lemma rtrim_cons_not_ws : forall c r, is_ws c = false -> rtrim (String c r) = String c (rtrim r).
Proof.
  intros c r H; simpl; destruct (rtrim r); [rewrite H|]; reflexivity.
Qed.

Lemma rtrim_idem : forall s, rtrim (rtrim s) = rtrim s.
Proof.
  induction s as [|c r IH]; [reflexivity|].
  simpl. destruct (rtrim r) as [|d t] eqn:E.
  - destruct (is_ws c) eqn:W; simpl; [reflexivity|rewrite W; reflexivity].
  - change (rtrim (String c (String d t))) with
      (match rtrim (String d t) with
       | EmptyString => if is_ws c then EmptyString else String c EmptyString
       | _ => String c (rtrim (String d t)) end).
    rewrite IH. reflexivity.
Qed.

Lemma ltrim_rtrim_ltrim : forall s, ltrim (rtrim (ltrim s)) = rtrim (ltrim s).
Proof.
  intros s. destruct (ltrim s) as [|c r] eqn:E; [reflexivity|].
  pose proof (ltrim_head_not_ws _ _ _ E) as W.
  rewrite (rtrim_cons_not_ws _ _ W). simpl. rewrite W. reflexivity.
Qed.

Lemma trim_idem : forall s, trim (trim s) = trim s.
Proof.
  intros s. unfold trim. rewrite ltrim_rtrim_ltrim. apply rtrim_idem.
Qed.

(** Text produced by the PDF extractor is already trimmed. *)
Lemma pdf_text_trimmed : forall rd raw, pdf_text rd = Ok raw -> trim raw = raw /\ raw <> EmptyString.
Proof.
  intros rd raw H. destruct rd as [| |e|pages]; simpl in H; try discriminate.
  destruct (pages_text EmptyString pages) as [full|e]; [|discriminate].
  destruct (String.eqb (trim full) EmptyString) eqn:E; [discriminate|].
  injection H as <-. split; [apply trim_idem|].
  apply String.eqb_neq; exact E.
Qed.

Lemma existsb_eqb_In : forall x l, existsb (String.eqb x) l = true <-> In x l.
Proof.
  intros x l. rewrite existsb_exists. split.
  - intros [y [Hy E]]. apply String.eqb_eq in E; subst; exact Hy.
  - intros H. exists x. split; [exact H|apply String.eqb_refl].
Qed.

Lemma split_dot_pop_no_dot : forall s, has_char "."%char s = false -> split_dot_pop s = s.
Proof.
  destruct s as [|c r]; cbn [split_dot_pop has_char]; intros H; [reflexivity|].
  apply orb_false_iff in H as [H1 H2].
  rewrite Ascii.eqb_sym, H1, H2. reflexivity.
Qed.

(** [validateFile] accepts or rejects without any effect, and a rejection
    leaves the world of [extractText] untouched. *)
Lemma extractText_validate_fails :
  forall rt rd rp pt f st w e,
    validateFile f = Throw e -> extractText rt rd rp pt f st w = (Throw e, w).
Proof.
  intros rt rd rp pt f st w e H. unfold extractText, bind, lift. rewrite H. reflexivity.
Qed.

Lemma extractText_unfold : forall rt rd rp pt f st,
  extractText rt rd rp pt f st =
  let! _ := lift (validateFile f) in
  try_catch
    (if txt_branch f then extractTextFromTxt rt f
     else if docx_branch f then extractTextFromDocx rd f
     else if pdf_branch f then
       match st with
       | None => fail "PDF processing requires LLM settings for text cleaning"
       | Some s => let! rawText := extractTextFromPdf rp f in cleanTextWithLLM pt rawText s
       end
     else fail ("Unsupported file type: " ++ ftype f))
    (fun error => fail ("Failed to extract text: " ++ error_message error "Unknown error")).
Proof. reflexivity. Qed.

Lemma routes_to_pdf_iff : forall f,
  routes_to_pdf f = true <->
  txt_branch f = false /\ docx_branch f = false /\ pdf_branch f = true.
Proof.
  intros f. unfold routes_to_pdf.
  destruct (txt_branch f), (docx_branch f), (pdf_branch f); simpl; intuition discriminate.
Qed.

Lemma size_message_eq : size_message = "File size must be less than 10 MB".
Proof. reflexivity. Qed.

(** What [cleanTextWithLLM] returns for a usable raw text, in terms of what
    [processText] does. *)
Definition clean_outcome (rawText : string) (r : result process_result) : string :=
  match r with
  | Ok (ProcOk (JStr c) _ _) => if String.eqb (trim c) EmptyString then rawText else trim c
  | _ => rawText
  end.

Lemma cleanTextWithLLM_outcome : forall pt raw s w,
  raw <> EmptyString -> trim raw <> EmptyString ->
  fst (cleanTextWithLLM pt raw s w) = Ok (clean_outcome raw (fst (pt (cleaningPrompt raw) s w))).
Proof.
  intros pt raw s w H1 H2. unfold cleanTextWithLLM.
  apply String.eqb_neq in H1, H2. rewrite H1, H2. simpl.
  unfold try_catch, bind, lift, ret, emit.
  destruct (pt (cleaningPrompt raw) s w) as [[res|e] w'].
  - destruct res as [c tk t|err t]; simpl; [|reflexivity].
    destruct c; simpl; try reflexivity.
    destruct (String.eqb (trim s0) EmptyString); reflexivity.
  - reflexivity.
Qed.

Lemma cleanTextWithLLM_ok : forall pt raw s w,
  raw <> EmptyString -> trim raw <> EmptyString ->
  exists w', cleanTextWithLLM pt raw s w = (Ok (clean_outcome raw (fst (pt (cleaningPrompt raw) s w))), w').
Proof.
  intros pt raw s w H1 H2.
  pose proof (cleanTextWithLLM_outcome pt raw s w H1 H2) as H.
  destruct (cleanTextWithLLM pt raw s w) as [r w']. simpl in H. subst r. eauto.
Qed.

(** The PDF branch with settings: read, then clean, with no wrapping of a
    successful cleaning. *)
Lemma extractText_pdf_with_settings : forall rt rd rp pt f s w raw,
  validateFile f = Ok tt -> routes_to_pdf f = true -> pdf_text (rp f) = Ok raw ->
  fst (extractText rt rd rp pt f (Some s) w)
  = Ok (clean_outcome raw (fst (pt (cleaningPrompt raw) s (after_pdf_read w)))).
Proof.
  intros rt rd rp pt f s w raw Hv Hr Hp.
  apply routes_to_pdf_iff in Hr as [Ht [Hd Hpdf]].
  destruct (pdf_text_trimmed _ _ Hp) as [Htr Hne].
  rewrite extractText_unfold. unfold bind at 1, lift at 1. rewrite Hv.
  rewrite Ht, Hd, Hpdf.
  assert (Hne' : trim raw <> EmptyString) by (rewrite Htr; exact Hne).
  destruct (cleanTextWithLLM_ok pt raw s (after_pdf_read w) Hne Hne') as [w' Hc].
  unfold try_catch, extractTextFromPdf, bind, emit, lift. rewrite Hp.
  change {| trace := EvRead ReadPdf :: trace w; clock := clock w |} with (after_pdf_read w).
  rewrite Hc. reflexivity.
Qed.

(** Claim C1, as amended: for a file that passes validation and that the
    dispatch of [extractText] routes to its PDF branch (MIME type neither
    text/plain nor the DOCX type, lower-cased name ending neither in .txt
    nor in .docx, and MIME type application/pdf or name ending in .pdf),
    [extractText] without settings rejects with "Failed to extract text:
    PDF processing requires LLM settings for text cleaning", whatever the
    readers would return, and without reading the file. *)
Theorem extractText_pdf_requires_settings : forall rt rd rp pt f w,
  validateFile f = Ok tt -> routes_to_pdf f = true ->
  extractText rt rd rp pt f None w
  = (Throw (JsError "Failed to extract text: PDF processing requires LLM settings for text cleaning"), w).
Proof.
  intros rt rd rp pt f w Hv Hr.
  apply routes_to_pdf_iff in Hr as [Ht [Hd Hp]].
  rewrite extractText_unfold. unfold bind at 1, lift at 1. rewrite Hv.
  rewrite Ht, Hd, Hp. reflexivity.
Qed.

Definition no_text (_ : File) : option string := None.
Definition some_text (_ : File) : option string := Some "plain contents".
Definition no_docx (_ : File) : docx_read := DocxReadError.
Definition one_page_pdf (_ : File) : pdf_read := PdfPages [[JObj [("str", JStr "mock")]]].
Definition pt_fails (_ : string) (_ : ConversionSettings) : M process_result :=
  ret (ProcErr "LLM error" 1000).
Definition w0 : world := {| trace := []; clock := 0 |}.
Definition pdf_file : File := {| fname := "brief.pdf"; ftype := "application/pdf"; fsize := 1000 |}.

Lemma extractText_pdf_requires_settings_witness :
  validateFile pdf_file = Ok tt /\ routes_to_pdf pdf_file = true /\
  extractText no_text no_docx one_page_pdf pt_fails pdf_file None w0
  = (Throw (JsError "Failed to extract text: PDF processing requires LLM settings for text cleaning"), w0).
Proof.
  split; [reflexivity|]. split; [reflexivity|].
  apply extractText_pdf_requires_settings; reflexivity.
Defined.

(** Claim C1 fails as stated: the rejection message carries the
    "Failed to extract text: " prefix of [extractText]'s [catch], and a
    file of MIME type application/pdf named "brief.txt" takes the plain
    text branch and resolves. *)
Lemma extractText_pdf_requires_settings_counterexample :
  fst (extractText no_text no_docx one_page_pdf pt_fails pdf_file None w0)
    <> Throw (JsError "PDF processing requires LLM settings for text cleaning") /\
  fst (extractText some_text no_docx one_page_pdf pt_fails
         {| fname := "brief.txt"; ftype := "application/pdf"; fsize := 1000 |} None w0)
    = Ok "plain contents".
Proof.
  split; [vm_compute; discriminate|reflexivity].
Qed.

(** Claim C2: for a PDF that reaches the PDF branch of [extractText] with
    settings and whose raw text extraction succeeds with a non-empty text
    [raw], [extractText] resolves with [raw] unchanged when the cleaning
    call ([processText], here any implementation of it) throws, reports
    failure, or returns content that is empty after trimming (or is not a
    string at all), and resolves with the trimmed content when that is
    non-empty. *)
Theorem extractText_pdf_cleaning_fallback : forall rt rd rp pt f s w raw,
  validateFile f = Ok tt -> routes_to_pdf f = true ->
  pdf_text (rp f) = Ok raw -> raw <> EmptyString ->
  let w1 := after_pdf_read w in
  let P := cleaningPrompt raw in
  (forall e w', pt P s w1 = (Throw e, w') ->
     fst (extractText rt rd rp pt f (Some s) w) = Ok raw) /\
  (forall err t w', pt P s w1 = (Ok (ProcErr err t), w') ->
     fst (extractText rt rd rp pt f (Some s) w) = Ok raw) /\
  (forall c tk t w', pt P s w1 = (Ok (ProcOk (JStr c) tk t), w') -> trim c = EmptyString ->
     fst (extractText rt rd rp pt f (Some s) w) = Ok raw) /\
  (forall c tk t w', pt P s w1 = (Ok (ProcOk c tk t), w') -> (forall str, c <> JStr str) ->
     fst (extractText rt rd rp pt f (Some s) w) = Ok raw) /\
  (forall c tk t w', pt P s w1 = (Ok (ProcOk (JStr c) tk t), w') -> trim c <> EmptyString ->
     fst (extractText rt rd rp pt f (Some s) w) = Ok (trim c)).
Proof.
  intros rt rd rp pt f s w raw Hv Hr Hp _ w1 P.
  rewrite (extractText_pdf_with_settings rt rd rp pt f s w raw Hv Hr Hp).
  fold w1 P. unfold clean_outcome.
  repeat split.
  - intros e w' H. rewrite H. reflexivity.
  - intros err t w' H. rewrite H. reflexivity.
  - intros c tk t w' H E. rewrite H. cbn [fst]. rewrite E. reflexivity.
  - intros c tk t w' H N. rewrite H.
    destruct c; try reflexivity. exfalso; eapply N; reflexivity.
  - intros c tk t w' H E. rewrite H. cbn [fst]. apply String.eqb_neq in E. rewrite E. reflexivity.
Qed.

Lemma extractText_pdf_cleaning_fallback_witness :
  validateFile pdf_file = Ok tt /\ routes_to_pdf pdf_file = true /\
  pdf_text (one_page_pdf pdf_file) = Ok "mock" /\
  fst (extractText no_text no_docx one_page_pdf pt_fails pdf_file (Some
        {| provider := "openai"; model := "gpt-4"; apiKey := "test-key";
           temperature := 1 # 10; maxTokens := 4000; useExamples := false;
           selectedExamples := []; customPrompt := EmptyString;
           customBaseUrl := None; customModel := None |}) w0) = Ok "mock".
Proof.
  split; [reflexivity|]. split; [reflexivity|]. split; [reflexivity|].
  refine (proj1 (proj2 (extractText_pdf_cleaning_fallback no_text no_docx one_page_pdf
            pt_fails pdf_file _ w0 "mock" eq_refl eq_refl eq_refl _))
            "LLM error" 1000%Z _ eq_refl).
  discriminate.
Defined.

Lemma validateFile_over_ceiling : forall f, (10485760 < fsize f)%Z ->
  validateFile f = Throw (JsError "File size must be less than 10 MB").
Proof.
  intros f H. unfold validateFile. change maxFileSize with 10485760%Z.
  rewrite (proj2 (Z.ltb_lt _ _) H). simpl. rewrite size_message_eq. reflexivity.
Qed.

Lemma validateFile_within_ceiling : forall f, (fsize f <= 10485760)%Z ->
  validateFile f = if negb (existsb (String.eqb (ftype f)) supportedTypes)
                      && negb (existsb (String.eqb (fileExtension (fname f))) supportedExtensions)
                   then Throw (JsError type_message) else Ok tt.
Proof.
  intros f H. unfold validateFile. change maxFileSize with 10485760%Z.
  assert (E : (10485760 <? fsize f)%Z = false) by (apply Z.ltb_ge; lia).
  rewrite E. reflexivity.
Qed.

(** Claim C3, as amended: the size check comes first. A file larger than
    10,485,760 bytes is rejected with "File size must be less than 10 MB"
    whatever its type, and [extractText] then rejects with that message
    before any reader runs (its world is unchanged). A file within the
    ceiling is accepted if and only if its MIME type is one of text/plain,
    the DOCX type, application/pdf, or its lower-cased extension is one
    of .txt, .docx, .pdf; failing both, it is rejected with exactly
    "Please upload a TXT, DOCX, or PDF file". *)
Theorem validateFile_spec : forall f,
  ((10485760 < fsize f)%Z ->
     validateFile f = Throw (JsError "File size must be less than 10 MB")) /\
  ((fsize f <= 10485760)%Z ->
     (validateFile f = Ok tt <->
      In (ftype f) supportedTypes \/ In (fileExtension (fname f)) supportedExtensions)) /\
  ((fsize f <= 10485760)%Z ->
     ~ In (ftype f) supportedTypes -> ~ In (fileExtension (fname f)) supportedExtensions ->
     validateFile f = Throw (JsError "Please upload a TXT, DOCX, or PDF file")) /\
  (forall rt rd rp pt st w, (10485760 < fsize f)%Z ->
     extractText rt rd rp pt f st w
     = (Throw (JsError "File size must be less than 10 MB"), w)).
Proof.
  intros f.
  pose proof (validateFile_over_ceiling f) as Hbig.
  pose proof (validateFile_within_ceiling f) as Hsmall.
  split; [exact Hbig|]. split; [|split].
  - intros H. rewrite (Hsmall H).
    rewrite <- !existsb_eqb_In.
    destruct (existsb (String.eqb (ftype f)) supportedTypes),
             (existsb (String.eqb (fileExtension (fname f))) supportedExtensions);
      simpl; intuition discriminate.
  - intros H N1 N2. rewrite (Hsmall H).
    rewrite <- existsb_eqb_In in N1, N2.
    apply not_true_is_false in N1, N2. rewrite N1, N2. reflexivity.
  - intros rt rd rp pt st w H. apply extractText_validate_fails. exact (Hbig H).
Qed.

(** Claim C3 fails as stated: a 20,000,000-byte file of an unsupported
    type and extension fails both type checks, yet is not rejected with
    "Please upload a TXT, DOCX, or PDF file" but with the size message. *)
Lemma validateFile_spec_counterexample :
  ~ In "application/unknown" supportedTypes /\
  ~ In (fileExtension "brief.xyz") supportedExtensions /\
  validateFile {| fname := "brief.xyz"; ftype := "application/unknown"; fsize := 20000000 |}
    <> Throw (JsError "Please upload a TXT, DOCX, or PDF file").
Proof.
  split; [simpl; intuition discriminate|].
  split; [vm_compute; intuition discriminate|].
  vm_compute. congruence.
Qed.

Lemma not_supported_type : forall t,
  ~ In t supportedTypes ->
  String.eqb t "text/plain" = false /\ String.eqb t docx_mime = false /\
  String.eqb t "application/pdf" = false /\ existsb (String.eqb t) supportedTypes = false.
Proof.
  intros t N.
  assert (F : forall u, In u supportedTypes -> String.eqb t u = false).
  { intros u Hu. apply String.eqb_neq. intros ->. exact (N Hu). }
  split; [apply F; simpl; auto|]. split; [apply F; simpl; auto|].
  split; [apply F; simpl; auto|].
  apply not_true_is_false. rewrite existsb_eqb_In. exact N.
Qed.

(** Claim C9: for a file name without '.', the validator's extension is
    '.' followed by the whole lower-cased name; so a file named exactly
    "pdf", "txt" or "docx", within the size ceiling and with an
    unsupported MIME type, passes validation, and [extractText] (with or
    without settings) then rejects it with "Failed to extract text:
    Unsupported file type: <type>", since no name of the dispatch ends in
    ".txt", ".docx" or ".pdf". *)
Theorem bare_extension_name_passes_then_unsupported :
  (forall nm, has_char "."%char nm = false -> fileExtension nm = "." ++ toLowerCase nm) /\
  (forall rt rd rp pt st f w,
     In (fname f) ["pdf"; "txt"; "docx"] -> ~ In (ftype f) supportedTypes ->
     (fsize f <= 10485760)%Z ->
     validateFile f = Ok tt /\
     extractText rt rd rp pt f st w
     = (Throw (JsError ("Failed to extract text: Unsupported file type: " ++ ftype f)), w)).
Proof.
  split.
  - intros nm H. unfold fileExtension. rewrite split_dot_pop_no_dot by exact H. reflexivity.
  - intros rt rd rp pt st f w Hn Ht Hs.
    destruct (not_supported_type _ Ht) as [T1 [T2 [T3 T4]]].
    assert (Hv : validateFile f = Ok tt).
    { rewrite (validateFile_within_ceiling f Hs), T4.
      simpl in Hn; destruct Hn as [E|[E|[E|[]]]]; rewrite <- E; reflexivity. }
    split; [exact Hv|].
    rewrite extractText_unfold. unfold bind at 1, lift at 1. rewrite Hv.
    unfold txt_branch, docx_branch, pdf_branch. rewrite T1, T2, T3.
    simpl in Hn; destruct Hn as [E|[E|[E|[]]]]; rewrite <- E; reflexivity.
Qed.

Lemma bare_extension_name_passes_then_unsupported_witness :
  validateFile {| fname := "pdf"; ftype := "application/unknown"; fsize := 7 |} = Ok tt /\
  extractText no_text no_docx one_page_pdf pt_fails
    {| fname := "pdf"; ftype := "application/unknown"; fsize := 7 |} None w0
  = (Throw (JsError "Failed to extract text: Unsupported file type: application/unknown"), w0).
Proof.
  apply (proj2 bare_extension_name_passes_then_unsupported no_text no_docx one_page_pdf
           pt_fails None {| fname := "pdf"; ftype := "application/unknown"; fsize := 7 |} w0).
  - simpl; auto.
  - simpl; intuition discriminate.
  - simpl; lia.
Defined.

(* ------------------------------------------------------------------ *)
(** ** Lemmas on the LLM client *)

(** The descriptor the registry holds for each identifier. *)
Definition provider_of (pid : string) : LLMProvider :=
  match find_provider pid with Some p => p | None => {| id := pid; name := EmptyString;
    baseUrl := EmptyString; requiresApiKey := false; models := [] |} end.

Lemma callProvider_openai : forall net prompt s,
  provider s = "openai" -> callProvider net prompt s = callOpenAI net prompt s (provider_of "openai").
Proof. intros net prompt s H. unfold callProvider. rewrite H. reflexivity. Qed.

Lemma callProvider_local : forall net prompt s,
  provider s = "local" -> callProvider net prompt s = callCustomAPI net prompt s (provider_of "local").
Proof. intros net prompt s H. unfold callProvider. rewrite H. reflexivity. Qed.

(** Past the blank-input guard, [convertToMarkdown] runs the dispatch and
    turns its outcome into a result object; it never throws. *)
Lemma convertToMarkdown_nonblank : forall net text s examples w,
  trim text <> EmptyString ->
  convertToMarkdown net text s examples w =
  match callProvider net (buildPrompt text examples (Some (customPrompt s))) s w with
  | (Ok resp, w1) =>
      (Ok (ConvOk (content resp) (tokensUsed resp) (clock w1 - clock w)), w1)
  | (Throw e, w1) =>
      (Ok (ConvErr (error_message e "Unknown error occurred") (clock w1 - clock w)), w1)
  end.
Proof.
  intros net text s examples w Ht.
  assert (E1 : String.eqb text EmptyString = false).
  { apply String.eqb_neq. intros ->. apply Ht. reflexivity. }
  apply String.eqb_neq in Ht.
  unfold convertToMarkdown. rewrite E1, Ht.
  unfold bind, now, try_catch, ret. change (false || false) with false.
  cbv beta iota zeta.
  destruct (callProvider net _ s w) as [[a|e] w1]; reflexivity.
Qed.

Lemma processText_nonblank : forall net prompt s w,
  trim prompt <> EmptyString ->
  processText net prompt s w =
  match callProvider net prompt s w with
  | (Ok resp, w1) =>
      (Ok (ProcOk (content resp) (tokensUsed resp) (clock w1 - clock w)), w1)
  | (Throw e, w1) =>
      (Ok (ProcErr (error_message e "Unknown error occurred") (clock w1 - clock w)), w1)
  end.
Proof.
  intros net prompt s w Ht.
  assert (E1 : String.eqb prompt EmptyString = false).
  { apply String.eqb_neq. intros ->. apply Ht. reflexivity. }
  apply String.eqb_neq in Ht.
  unfold processText. rewrite E1, Ht.
  unfold bind, now, try_catch, ret. change (false || false) with false.
  cbv beta iota zeta.
  destruct (callProvider net prompt s w) as [[a|e] w1]; reflexivity.
Qed.

Lemma opt_get_of_get : forall u k v, get u k = Ok v -> opt_get u k = Ok v.
Proof. intros u k v H. destruct u; simpl in *; congruence. Qed.

(** Reading [choices[0].message.content] and [usage?.total_tokens ?? 0]
    from a parsed body. *)
Lemma read_chat_completion_ok : forall body ch c0 m c u t w,
  get body "choices" = Ok ch -> idx ch 0 = Ok c0 -> get c0 "message" = Ok m ->
  get m "content" = Ok c -> get body "usage" = Ok u -> opt_get u "total_tokens" = Ok t ->
  read_chat_completion body w = (Ok {| content := c; tokensUsed := nullish t (JNum 0) |}, w).
Proof.
  intros body ch c0 m c u t w H1 H2 H3 H4 H5 H6.
  unfold read_chat_completion, bind, getM, idxM, opt_getM, lift, ret.
  rewrite H1, H2, H3, H4, H5, H6. reflexivity.
Qed.

(** The request [callOpenAI] sends. *)
Definition openai_request (prompt : string) (s : ConversionSettings) (p : LLMProvider) : request :=
  {| url := baseUrl p ++ "/chat/completions";
     method := "POST";
     headers := [("Content-Type", "application/json");
                 ("Authorization", "Bearer " ++ apiKey s)];
     body := chat_body (model s) prompt s |}.

Lemma callOpenAI_ok : forall net prompt s p w d r body resp,
  apiKey s <> EmptyString ->
  net (openai_request prompt s p) = (d, FetchResolve r) -> ok r = true ->
  json_body r = inr body ->
  let w1 := {| trace := EvFetch (openai_request prompt s p) :: trace w;
               clock := clock w + Z.of_nat d |} in
  read_chat_completion body w1 = (Ok resp, w1) ->
  callOpenAI net prompt s p w = (Ok resp, w1).
Proof.
  intros net prompt s p w d r body resp Hk Hn Ho Hj w1 Hr.
  unfold callOpenAI. apply String.eqb_neq in Hk. rewrite Hk.
  unfold bind at 1, fetch. fold (openai_request prompt s p). rewrite Hn.
  rewrite Ho. simpl negb. cbv iota.
  unfold bind, resp_json. rewrite Hj. exact Hr.
Qed.

Lemma callProvider_unknown : forall net prompt s w,
  find_provider (provider s) = None ->
  callProvider net prompt s w = (Throw (JsError ("Invalid LLM provider: " ++ provider s)), w).
Proof. intros net prompt s w H. unfold callProvider. rewrite H. reflexivity. Qed.

Lemma callProvider_openai_no_key : forall net prompt s w,
  provider s = "openai" -> apiKey s = EmptyString ->
  callProvider net prompt s w = (Throw (JsError "OpenAI API key is required"), w).
Proof.
  intros net prompt s w Hp Hk. rewrite callProvider_openai by exact Hp.
  unfold callOpenAI. rewrite Hk. reflexivity.
Qed.

(** Claim C4: with provider "openai", a non-empty key and a non-blank
    text (so that a request is sent), when the request is answered by a
    200 response whose JSON body has [choices[0].message.content = "# X"],
    [convertToMarkdown] resolves with [success: true], [markdown: "# X"]
    and [tokensUsed] equal to [usage.total_tokens] when that is 150, and
    to 0 when [usage] is absent. *)
Theorem convertToMarkdown_openai_success : forall net text s examples w r body ch c0 m u,
  provider s = "openai" -> apiKey s <> EmptyString -> trim text <> EmptyString ->
  (forall req, snd (net req) = FetchResolve r) -> status r = 200%Z -> json_body r = inr body ->
  get body "choices" = Ok ch -> idx ch 0 = Ok c0 -> get c0 "message" = Ok m ->
  get m "content" = Ok (JStr "# X") -> get body "usage" = Ok u ->
  (get u "total_tokens" = Ok (JNum 150) ->
     exists t, fst (convertToMarkdown net text s examples w)
               = Ok (ConvOk (JStr "# X") (JNum 150) t)) /\
  (u = JUndef ->
     exists t, fst (convertToMarkdown net text s examples w)
               = Ok (ConvOk (JStr "# X") (JNum 0) t)).
Proof.
  intros net text s examples w r body ch c0 m u Hp Hk Ht Hn Hs Hj H1 H2 H3 H4 H5.
  rewrite (convertToMarkdown_nonblank net text s examples w Ht).
  rewrite (callProvider_openai net _ s Hp).
  set (P := buildPrompt text examples (Some (customPrompt s))).
  destruct (net (openai_request P s (provider_of "openai"))) as [d o] eqn:En.
  assert (Ho : o = FetchResolve r) by (rewrite <- (Hn (openai_request P s (provider_of "openai"))), En; reflexivity).
  subst o.
  assert (Hok : ok r = true) by (unfold ok; rewrite Hs; reflexivity).
  split.
  - intros H6.
    rewrite (callOpenAI_ok net P s (provider_of "openai") w d r body _ Hk En Hok Hj
               (read_chat_completion_ok body ch c0 m (JStr "# X") u (JNum 150) _
                  H1 H2 H3 H4 H5 (opt_get_of_get _ _ _ H6))).
    eexists; reflexivity.
  - intros ->.
    rewrite (callOpenAI_ok net P s (provider_of "openai") w d r body _ Hk En Hok Hj
               (read_chat_completion_ok body ch c0 m (JStr "# X") JUndef JUndef _
                  H1 H2 H3 H4 H5 eq_refl)).
    eexists; reflexivity.
Qed.

Definition openai_settings : ConversionSettings :=
  {| provider := "openai"; model := "gpt-4"; apiKey := "test-key";
     temperature := 1 # 10; maxTokens := 4000; useExamples := false;
     selectedExamples := []; customPrompt := EmptyString;
     customBaseUrl := None; customModel := None |}.

Definition body_150 : jsval :=
  JObj [("choices", JArr [JObj [("message", JObj [("content", JStr "# X")])]]);
        ("usage", JObj [("total_tokens", JNum 150)])].

Definition response_150 : response :=
  {| status := 200; statusText := "OK"; json_body := inr body_150; text_body := EmptyString |}.

Definition net_150 (_ : request) : nat * fetch_outcome := (3%nat, FetchResolve response_150).

Lemma convertToMarkdown_openai_success_witness :
  exists t, fst (convertToMarkdown net_150 "test text" openai_settings [] w0)
            = Ok (ConvOk (JStr "# X") (JNum 150) t).
Proof.
  refine (proj1 (convertToMarkdown_openai_success net_150 "test text" openai_settings [] w0
     response_150 body_150 _ _ _ (JObj [("total_tokens", JNum 150)])
     eq_refl _ _ (fun _ => eq_refl) eq_refl eq_refl eq_refl eq_refl eq_refl eq_refl eq_refl) eq_refl).
  - discriminate.
  - vm_compute. discriminate.
Defined.

(** Claim C5: on a blank input (empty or white space only)
    [convertToMarkdown] and [processText] return a failure result with
    processing time 0 and leave the world untouched (no request is sent);
    otherwise every exception of the dispatch (unknown provider, missing
    key, transport error, JSON error, ...) comes back as a failure result
    [{success: false, error, processingTime}], and neither entry point
    ever throws. *)
Theorem llm_entry_points_structured_failures :
  (forall net text s examples w, trim text = EmptyString ->
     convertToMarkdown net text s examples w
     = (Ok (ConvErr "No text content provided for conversion" 0), w)) /\
  (forall net prompt s w, trim prompt = EmptyString ->
     processText net prompt s w = (Ok (ProcErr "No prompt provided for text processing" 0), w)) /\
  (forall net text s examples w e w1, trim text <> EmptyString ->
     callProvider net (buildPrompt text examples (Some (customPrompt s))) s w = (Throw e, w1) ->
     convertToMarkdown net text s examples w
     = (Ok (ConvErr (error_message e "Unknown error occurred") (clock w1 - clock w)), w1)) /\
  (forall net prompt s w e w1, trim prompt <> EmptyString ->
     callProvider net prompt s w = (Throw e, w1) ->
     processText net prompt s w
     = (Ok (ProcErr (error_message e "Unknown error occurred") (clock w1 - clock w)), w1)) /\
  (forall net prompt s w, find_provider (provider s) = None ->
     callProvider net prompt s w = (Throw (JsError ("Invalid LLM provider: " ++ provider s)), w)) /\
  (forall net prompt s w, provider s = "openai" -> apiKey s = EmptyString ->
     callProvider net prompt s w = (Throw (JsError "OpenAI API key is required"), w)) /\
  (forall net text s examples w, exists r w', convertToMarkdown net text s examples w = (Ok r, w')) /\
  (forall net prompt s w, exists r w', processText net prompt s w = (Ok r, w')).
Proof.
  split; [|split; [|split; [|split; [|split; [|split; [|split]]]]]].
  - intros net text s examples w H. unfold convertToMarkdown.
    assert (E : String.eqb (trim text) EmptyString = true) by (rewrite H; reflexivity).
    rewrite E, orb_true_r. reflexivity.
  - intros net prompt s w H. unfold processText.
    assert (E : String.eqb (trim prompt) EmptyString = true) by (rewrite H; reflexivity).
    rewrite E, orb_true_r. reflexivity.
  - intros net text s examples w e w1 Ht Hc.
    rewrite (convertToMarkdown_nonblank net text s examples w Ht), Hc. reflexivity.
  - intros net prompt s w e w1 Ht Hc.
    rewrite (processText_nonblank net prompt s w Ht), Hc. reflexivity.
  - exact callProvider_unknown.
  - exact callProvider_openai_no_key.
  - intros net text s examples w.
    destruct (String.eqb (trim text) EmptyString) eqn:E.
    + unfold convertToMarkdown. rewrite E, orb_true_r. do 2 eexists; reflexivity.
    + apply String.eqb_neq in E. rewrite (convertToMarkdown_nonblank net text s examples w E).
      destruct (callProvider _ _ _ _) as [[a|e] w1]; do 2 eexists; reflexivity.
  - intros net prompt s w.
    destruct (String.eqb (trim prompt) EmptyString) eqn:E.
    + unfold processText. rewrite E, orb_true_r. do 2 eexists; reflexivity.
    + apply String.eqb_neq in E. rewrite (processText_nonblank net prompt s w E).
      destruct (callProvider _ _ _ _) as [[a|e] w1]; do 2 eexists; reflexivity.
Qed.

Lemma llm_entry_points_structured_failures_witness :
  convertToMarkdown net_150 "   " openai_settings [] w0
  = (Ok (ConvErr "No text content provided for conversion" 0), w0).
Proof.
  apply (proj1 llm_entry_points_structured_failures). reflexivity.
Defined.

(** Claim C6: when the custom instruction is non-empty after trimming,
    the conversion prompt is exactly the trimmed instruction, the fixed
    separator line "Now convert this legal pleading:" (between blank
    lines), the document text and the fixed closing instruction; the
    default template and the examples take no part in it, whatever the
    text and the example list. *)
Theorem buildPrompt_custom_instruction : forall text examples s,
  trim (customPrompt s) <> EmptyString ->
  buildPrompt text examples (Some (customPrompt s))
  = trim (customPrompt s) ++ convert_separator ++ text ++ convert_closing.
Proof.
  intros text examples s H. unfold buildPrompt.
  apply String.eqb_neq in H. rewrite H. reflexivity.
Qed.

Lemma buildPrompt_custom_instruction_witness :
  buildPrompt "test text" [] (Some "  Custom conversion instructions ")
  = "Custom conversion instructions" ++ convert_separator ++ "test text" ++ convert_closing.
Proof.
  apply (buildPrompt_custom_instruction "test text" []
    {| provider := "openai"; model := "gpt-4"; apiKey := "test-key";
       temperature := 1 # 10; maxTokens := 4000; useExamples := false;
       selectedExamples := []; customPrompt := "  Custom conversion instructions ";
       customBaseUrl := None; customModel := None |}).
  vm_compute. discriminate.
Defined.

Lemma read_chat_completion_world : forall d w, snd (read_chat_completion d w) = w.
Proof.
  intros d w. unfold read_chat_completion, bind, getM, idxM, opt_getM, lift, ret.
  repeat match goal with
         | |- context [match ?x with Ok _ => _ | Throw _ => _ end] => destruct x
         end; reflexivity.
Qed.

(** Once the base URL is non-empty, [callCustomAPI] sends exactly the
    request [custom_request] and records nothing else. *)
Lemma callCustomAPI_fetches : forall net prompt s p w,
  custom_base s p <> EmptyString ->
  exists r w', callCustomAPI net prompt s p w = (r, w') /\
               trace w' = EvFetch (custom_request prompt s p) :: trace w.
Proof.
  intros net prompt s p w H. unfold callCustomAPI.
  apply String.eqb_neq in H. rewrite H.
  unfold bind at 1, fetch.
  destruct (net (custom_request prompt s p)) as [d [e|r]].
  - do 2 eexists. split; reflexivity.
  - destruct (ok r); cbn [negb].
    + unfold bind, resp_json. destruct (json_body r) as [msg|v]; unfold ret; cbv beta iota.
      * do 2 eexists. split; reflexivity.
      * match goal with |- context [read_chat_completion v ?w1] =>
          pose proof (read_chat_completion_world v w1) as Hw;
          destruct (read_chat_completion v w1) as [r' w'] end.
        simpl in Hw. subst w'. do 2 eexists. split; reflexivity.
    + do 2 eexists. split; reflexivity.
Qed.

(** Claim C7, as amended: in the local/custom branch ([callProvider]
    with provider "local" calls [callCustomAPI]), the base URL is
    [settings.customBaseUrl] when it is present and non-empty and the
    provider's [baseUrl] when it is absent or empty; the model is
    [settings.customModel] when present and non-empty and "custom"
    otherwise. With a non-empty base URL the one request sent is a POST
    to <base URL>/chat/completions whose JSON body has that model and
    whose only header is Content-Type (no Authorization); with an empty
    base URL the call fails with "Custom base URL is required for local
    LLM" before any request. *)
Theorem callCustomAPI_request_shape : forall net prompt s p w,
  (provider s = "local" ->
     callProvider net prompt s = callCustomAPI net prompt s (provider_of "local")) /\
  (forall u, customBaseUrl s = Some u -> u <> EmptyString -> custom_base s p = u) /\
  ((customBaseUrl s = None \/ customBaseUrl s = Some EmptyString) -> custom_base s p = baseUrl p) /\
  (forall mm, customModel s = Some mm -> mm <> EmptyString -> custom_model s = mm) /\
  ((customModel s = None \/ customModel s = Some EmptyString) -> custom_model s = "custom") /\
  (custom_base s p = EmptyString ->
     callCustomAPI net prompt s p w
     = (Throw (JsError "Custom base URL is required for local LLM"), w)) /\
  (custom_base s p <> EmptyString ->
     exists r w', callCustomAPI net prompt s p w = (r, w') /\
                  trace w' = EvFetch (custom_request prompt s p) :: trace w) /\
  url (custom_request prompt s p) = custom_base s p ++ "/chat/completions" /\
  method (custom_request prompt s p) = "POST" /\
  map fst (headers (custom_request prompt s p)) = ["Content-Type"] /\
  ~ In "Authorization" (map fst (headers (custom_request prompt s p))) /\
  get (body (custom_request prompt s p)) "model" = Ok (JStr (custom_model s)).
Proof.
  intros net prompt s p w.
  split; [apply callProvider_local|].
  split; [intros u Hu Hne; unfold custom_base, or_str; rewrite Hu;
          apply String.eqb_neq in Hne; rewrite Hne; reflexivity|].
  split; [intros [Hu|Hu]; unfold custom_base, or_str; rewrite Hu; reflexivity|].
  split; [intros u Hu Hne; unfold custom_model, or_str; rewrite Hu;
          apply String.eqb_neq in Hne; rewrite Hne; reflexivity|].
  split; [intros [Hu|Hu]; unfold custom_model, or_str; rewrite Hu; reflexivity|].
  split; [intros H; unfold callCustomAPI; rewrite H; reflexivity|].
  split; [apply callCustomAPI_fetches|].
  split; [reflexivity|]. split; [reflexivity|]. split; [reflexivity|].
  split; [simpl; intuition discriminate|].
  reflexivity.
Qed.

Definition local_settings (cb cm : option string) : ConversionSettings :=
  {| provider := "local"; model := "custom"; apiKey := EmptyString;
     temperature := 1 # 10; maxTokens := 4000; useExamples := false;
     selectedExamples := []; customPrompt := EmptyString;
     customBaseUrl := cb; customModel := cm |}.

Lemma callCustomAPI_request_shape_witness :
  custom_base (local_settings (Some "http://localhost:8080/v1") (Some "llama2")) (provider_of "local")
    = "http://localhost:8080/v1" /\
  custom_model (local_settings (Some "http://localhost:8080/v1") (Some "llama2")) = "llama2".
Proof.
  destruct (callCustomAPI_request_shape net_150 "p"
              (local_settings (Some "http://localhost:8080/v1") (Some "llama2"))
              (provider_of "local") w0)
    as [_ [Hb [_ [Hm _]]]].
  split; [apply Hb|apply Hm]; try reflexivity; discriminate.
Defined.

(** Claim C7 fails as stated: a present but empty [customBaseUrl] (what
    the settings form stores when its field is cleared) is not used; the
    request goes to the provider's base URL, and an empty [customModel]
    gives the model "custom". *)
Lemma callCustomAPI_request_shape_counterexample :
  trace (snd (callCustomAPI net_150 "p" (local_settings (Some EmptyString) (Some EmptyString))
                (provider_of "local") w0))
  = [EvFetch (custom_request "p" (local_settings (Some EmptyString) (Some EmptyString))
                             (provider_of "local"))] /\
  url (custom_request "p" (local_settings (Some EmptyString) (Some EmptyString)) (provider_of "local"))
    = "http://localhost:11434/v1/chat/completions" /\
  url (custom_request "p" (local_settings (Some EmptyString) (Some EmptyString)) (provider_of "local"))
    <> EmptyString ++ "/chat/completions" /\
  get (body (custom_request "p" (local_settings (Some EmptyString) (Some EmptyString))
                            (provider_of "local"))) "model" = Ok (JStr "custom").
Proof.
  split; [reflexivity|]. split; [reflexivity|]. split; [vm_compute; discriminate|].
  reflexivity.
Qed.

(** Claim C10: every descriptor of the registry has a non-empty
    [baseUrl]; hence for settings whose provider identifier resolves in
    the registry, [customBaseUrl || provider.baseUrl] is non-empty, the
    "Custom base URL is required for local LLM" branch of
    [callCustomAPI] is not taken, and the call sends its request. *)
Theorem registry_base_urls_nonempty :
  Forall (fun p => baseUrl p <> EmptyString) LLM_PROVIDERS /\
  (forall s p, find_provider (provider s) = Some p ->
     custom_base s p <> EmptyString /\
     forall net prompt w,
       callCustomAPI net prompt s p w <> (Throw (JsError "Custom base URL is required for local LLM"), w) /\
       exists r w', callCustomAPI net prompt s p w = (r, w') /\
                    trace w' = EvFetch (custom_request prompt s p) :: trace w).
Proof.
  assert (HF : Forall (fun p => baseUrl p <> EmptyString) LLM_PROVIDERS).
  { repeat constructor; discriminate. }
  split; [exact HF|].
  intros s p Hf.
  assert (Hb : baseUrl p <> EmptyString).
  { unfold find_provider in Hf. apply find_some in Hf as [Hin _].
    rewrite Forall_forall in HF. exact (HF p Hin). }
  assert (Hc : custom_base s p <> EmptyString).
  { unfold custom_base, or_str.
    destruct (customBaseUrl s) as [u|]; [|exact Hb].
    destruct (String.eqb u EmptyString) eqn:E; [exact Hb|].
    apply String.eqb_neq; exact E. }
  split; [exact Hc|].
  intros net prompt w.
  destruct (callCustomAPI_fetches net prompt s p w Hc) as [r [w' [Hcall Ht]]].
  split; [|eauto].
  rewrite Hcall. intros E. injection E as _ <-.
  apply (f_equal (@List.length event)) in Ht. simpl in Ht. lia.
Qed.

Lemma registry_base_urls_nonempty_witness :
  find_provider "local" = Some (provider_of "local") /\
  custom_base (local_settings None None) (provider_of "local") <> EmptyString.
Proof.
  split; [reflexivity|].
  apply (proj2 registry_base_urls_nonempty (local_settings None None) (provider_of "local")).
  reflexivity.
Defined.

Lemma string_length_app : forall a b, String.length (a ++ b) = (String.length a + String.length b)%nat.
Proof. induction a as [|c a IH]; intros b; simpl; [reflexivity|now rewrite IH]. Qed.

Lemma string_app_assoc : forall a b c, (a ++ b) ++ c = a ++ b ++ c.
Proof. induction a as [|x a IH]; intros b c; simpl; [reflexivity|now rewrite IH]. Qed.

Lemma substring_whole : forall s, substring 0 (String.length s) s = s.
Proof. induction s as [|c s IH]; simpl; [reflexivity|now rewrite IH]. Qed.

Lemma substring_after_prefix : forall a s,
  substring (String.length a) (String.length s) (a ++ s) = s.
Proof. induction a as [|c a IH]; intros s; simpl; [apply substring_whole|apply IH]. Qed.

Lemma endsWith_app : forall a s, endsWith (a ++ s) s = true.
Proof.
  intros a s. unfold endsWith. rewrite string_length_app.
  replace (String.length a + String.length s - String.length s)%nat with (String.length a) by lia.
  rewrite substring_after_prefix, String.eqb_refl, andb_true_r.
  apply Nat.leb_le. lia.
Qed.

(** The part of the unit selection that holds: every size from 1024 to
    1048575 bytes is printed in KB. *)
Lemma formatFileSize_KB_range : forall b, (1024 <= b <= 1048575)%Z ->
  endsWith (formatFileSize b) "KB" = true.
Proof.
  intros b Hb. unfold formatFileSize.
  rewrite (proj2 (Z.eqb_neq b 0)) by lia. rewrite (proj2 (Z.ltb_ge b 0)) by lia.
  assert (L1 : (10 <= Z.log2 b)%Z).
  { change 10%Z with (Z.log2 1024). apply Z.log2_le_mono. lia. }
  assert (L2 : (Z.log2 b < 20)%Z).
  { apply Z.log2_lt_pow2; [lia|]. change (2 ^ 20)%Z with 1048576%Z. lia. }
  assert (Hi : (Z.log2 b / 10 = 1)%Z).
  { symmetry. apply Z.div_unique with (r := (Z.log2 b - 10)%Z); lia. }
  cbv zeta. rewrite Hi. simpl nth_error. cbv iota.
  rewrite <- string_app_assoc. apply endsWith_app.
Qed.

(** Claim C8 (a defect of [formatFileSize]): the unit index
    [Math.floor(Math.log(bytes) / Math.log(1024))] is used on the
    four-element [sizes] array without a bound, so beyond 1 TiB the unit
    printed is "undefined" ("32 undefined" for 2^45 bytes, where the
    quotient of logarithms is 4.5) instead of a unit of
    {Bytes, KB, MB, GB}. The claim's other values hold: 0, a
    negative size, 1024, 1536 and 1048576 are printed as it says. *)
Theorem formatFileSize_past_GB :
  formatFileSize 35184372088832 = "32 undefined" /\
  formatFileSize 0 = "0 Bytes" /\
  formatFileSize (-1) = "Invalid size" /\
  formatFileSize 1024 = "1 KB" /\
  formatFileSize 1536 = "1.5 KB" /\
  formatFileSize 1048576 = "1 MB" /\
  formatFileSize 1073741824 = "1 GB".
Proof. repeat split; vm_compute; reflexivity. Qed.

(* ------------------------------------------------------------------ *)
(** ** Further properties of the file processor *)

Lemma has_char_app : forall c a b, has_char c (a ++ b) = has_char c a || has_char c b.
Proof.
  intros c a b. induction a as [|d a IH]; simpl; [reflexivity|].
  rewrite IH, orb_assoc. reflexivity.
Qed.

Lemma split_dot_pop_last : forall pre e,
  has_char "."%char e = false -> split_dot_pop (pre ++ "." ++ e) = e.
Proof.
  intros pre e He. induction pre as [|c r IH].
  - simpl. apply split_dot_pop_no_dot. exact He.
  - change ((String c r ++ "." ++ e)) with (String c (r ++ "." ++ e)).
    cbn [split_dot_pop].
    assert (Hd : has_char "."%char (r ++ "." ++ e) = true).
    { rewrite has_char_app. simpl. rewrite orb_true_r. reflexivity. }
    rewrite Hd, IH. destruct (Ascii.eqb c "."%char); reflexivity.
Qed.

Lemma lower_char_dot : forall c, Ascii.eqb (lower_char c) "."%char = Ascii.eqb c "."%char.
Proof. intros [[] [] [] [] [] [] [] []]; reflexivity. Qed.

Lemma lower_char_idem : forall c, lower_char (lower_char c) = lower_char c.
Proof. intros [[] [] [] [] [] [] [] []]; reflexivity. Qed.

Lemma toLowerCase_idem : forall s, toLowerCase (toLowerCase s) = toLowerCase s.
Proof. induction s as [|c s IH]; simpl; [reflexivity|now rewrite lower_char_idem, IH]. Qed.

Lemma has_char_dot_lower : forall s, has_char "."%char (toLowerCase s) = has_char "."%char s.
Proof.
  induction s as [|c s IH]; cbn [toLowerCase has_char]; [reflexivity|].
  rewrite IH, (Ascii.eqb_sym "."%char (lower_char c)), (Ascii.eqb_sym "."%char c), lower_char_dot.
  reflexivity.
Qed.

Lemma split_dot_pop_lower : forall s, split_dot_pop (toLowerCase s) = toLowerCase (split_dot_pop s).
Proof.
  induction s as [|c s IH]; [reflexivity|].
  cbn [toLowerCase split_dot_pop]. rewrite lower_char_dot, has_char_dot_lower, IH.
  destruct (Ascii.eqb c "."%char), (has_char "."%char s); reflexivity.
Qed.

Lemma fileExtension_lower : forall s, fileExtension (toLowerCase s) = fileExtension s.
Proof.
  intros s. unfold fileExtension. rewrite split_dot_pop_lower, toLowerCase_idem. reflexivity.
Qed.

(** Extra: the extension the validator checks is the text after the last
    '.' of the name, lower-cased, whatever comes before it (including
    other dots). So a file within the size ceiling named
    [pre ++ "." ++ e], [e] without '.', is accepted exactly when its MIME
    type is supported or ["." ++ toLowerCase e] is one of .txt, .docx,
    .pdf. *)
Theorem validateFile_last_extension : forall pre e,
  has_char "."%char e = false ->
  fileExtension (pre ++ "." ++ e) = "." ++ toLowerCase e /\
  (forall f, fname f = pre ++ "." ++ e -> (fsize f <= 10485760)%Z ->
     (validateFile f = Ok tt <->
      In (ftype f) supportedTypes \/ In ("." ++ toLowerCase e) supportedExtensions)).
Proof.
  intros pre e He.
  assert (Hx : fileExtension (pre ++ "." ++ e) = "." ++ toLowerCase e).
  { unfold fileExtension. rewrite split_dot_pop_last by exact He. reflexivity. }
  split; [exact Hx|].
  intros f Hn Hs. rewrite (validateFile_within_ceiling f Hs), Hn, Hx.
  rewrite <- !existsb_eqb_In.
  destruct (existsb (String.eqb (ftype f)) supportedTypes),
           (existsb (String.eqb ("." ++ toLowerCase e)) supportedExtensions);
    simpl; intuition discriminate.
Qed.

Lemma validateFile_last_extension_witness :
  fileExtension ("brief.v2" ++ "." ++ "PDF") = ".pdf" /\
  validateFile {| fname := "brief.v2.PDF"; ftype := "application/octet-stream"; fsize := 5000 |} = Ok tt.
Proof.
  destruct (validateFile_last_extension "brief.v2" "PDF" eq_refl) as [Hx Hv].
  split; [exact Hx|].
  apply (Hv {| fname := "brief.v2.PDF"; ftype := "application/octet-stream"; fsize := 5000 |}).
  - reflexivity.
  - simpl; lia.
  - right. simpl. auto.
Defined.

(** Extra: only the lower-cased name matters. Two files with the same
    MIME type and size whose names differ only in letter case are both
    accepted or both rejected by the validator, with the same message,
    and take the same branch of [extractText]'s dispatch. *)
Theorem validateFile_name_case_insensitive : forall f g,
  ftype f = ftype g -> fsize f = fsize g ->
  toLowerCase (fname f) = toLowerCase (fname g) ->
  validateFile f = validateFile g /\ txt_branch f = txt_branch g /\
  docx_branch f = docx_branch g /\ pdf_branch f = pdf_branch g.
Proof.
  intros f g Ht Hs Hn.
  assert (Hx : fileExtension (fname f) = fileExtension (fname g)).
  { rewrite <- (fileExtension_lower (fname f)), <- (fileExtension_lower (fname g)), Hn.
    reflexivity. }
  unfold validateFile, txt_branch, docx_branch, pdf_branch.
  rewrite Ht, Hs, Hx, Hn. repeat split.
Qed.

Lemma validateFile_name_case_insensitive_witness :
  validateFile {| fname := "Brief.DOCX"; ftype := EmptyString; fsize := 10 |}
  = validateFile {| fname := "brief.docx"; ftype := EmptyString; fsize := 10 |}.
Proof.
  apply (validateFile_name_case_insensitive
           {| fname := "Brief.DOCX"; ftype := EmptyString; fsize := 10 |}
           {| fname := "brief.docx"; ftype := EmptyString; fsize := 10 |});
    reflexivity.
Defined.

Lemma Q_to_string_hundredths_whole : forall n, (0 <= n)%Z -> Q_to_string ((100 * n) # 100) = Z_to_string n.
Proof.
  intros n Hn. unfold Q_to_string. cbn [Qnum Qden].
  rewrite Z.abs_eq by lia.
  replace ((100 * n) / 100)%Z with n by (apply Z.div_unique with (r := 0%Z); lia).
  replace ((100 * n) mod 100)%Z with 0%Z by (apply Z.mod_unique with (q := n); lia).
  rewrite (proj2 (Z.ltb_ge (100 * n) 0)) by lia. reflexivity.
Qed.

(** Extra: a whole number [n] of units, [1 <= n < 1024], of any unit
    up to GB, is printed as the integer [n] followed by the unit name:
    [n * 1024^i] bytes give "n Bytes", "n KB", "n MB" or "n GB" for
    [i = 0, 1, 2, 3]. *)
Theorem formatFileSize_whole_units : forall n i,
  (1 <= n < 1024)%Z -> (i <= 3)%nat ->
  formatFileSize (n * 1024 ^ Z.of_nat i) = Z_to_string n ++ " " ++ nth i sizes EmptyString.
Proof.
  intros n i Hn Hi.
  set (d := (1024 ^ Z.of_nat i)%Z).
  assert (Hd2 : d = (2 ^ (10 * Z.of_nat i))%Z).
  { unfold d. rewrite Z.pow_mul_r by lia. reflexivity. }
  assert (Hd : (0 < d)%Z) by (unfold d; apply Z.pow_pos_nonneg; lia).
  unfold formatFileSize.
  rewrite (proj2 (Z.eqb_neq (n * d) 0)) by nia.
  rewrite (proj2 (Z.ltb_ge (n * d) 0)) by nia.
  cbv zeta. fold d.
  assert (Hl : Z.log2 (n * d) = (10 * Z.of_nat i + Z.log2 n)%Z).
  { rewrite Hd2. apply Z.log2_mul_pow2; lia. }
  assert (Hn1 : (0 <= Z.log2 n)%Z) by apply Z.log2_nonneg.
  assert (Hn2 : (Z.log2 n < 10)%Z).
  { apply Z.log2_lt_pow2; [lia|]. change (2 ^ 10)%Z with 1024%Z. lia. }
  assert (Hq : (Z.log2 (n * d) / 10 = Z.of_nat i)%Z).
  { rewrite Hl. symmetry. apply Z.div_unique with (r := Z.log2 n); lia. }
  rewrite Hq. fold d.
  replace ((200 * (n * d) + d) / (2 * d))%Z with (100 * n)%Z
    by (apply Z.div_unique with (r := d); nia).
  rewrite Q_to_string_hundredths_whole by lia.
  rewrite Nat2Z.id.
  destruct i as [|[|[|[|i]]]]; try reflexivity. lia.
Qed.

Lemma formatFileSize_whole_units_witness :
  formatFileSize (10 * 1024 ^ Z.of_nat 2) = "10 MB".
Proof.
  apply (formatFileSize_whole_units 10 2); lia.
Defined.



(** The world after a reader of kind [k] has started. *)
Definition after_read (k : reader_kind) (w : world) : world :=
  {| trace := EvRead k :: trace w; clock := clock w |}.

(** Extra: a plain-text file (MIME type text/plain or lower-cased name
    ending in .txt) that passes validation is read once with the text
    reader, and [extractText] resolves with exactly the text read,
    untrimmed, or rejects with "Failed to extract text: Failed to read
    text file"; the settings and the LLM play no part. *)
Theorem extractText_txt : forall rt rd rp pt f st w,
  validateFile f = Ok tt -> txt_branch f = true ->
  extractText rt rd rp pt f st w =
  match rt f with
  | Some text => (Ok text, after_read ReadText w)
  | None => (Throw (JsError "Failed to extract text: Failed to read text file"), after_read ReadText w)
  end.
Proof.
  intros rt rd rp pt f st w Hv Ht.
  rewrite extractText_unfold. unfold bind at 1, lift at 1. rewrite Hv, Ht.
  unfold try_catch, extractTextFromTxt, bind, emit.
  destruct (rt f); reflexivity.
Qed.

Lemma extractText_txt_witness :
  extractText some_text no_docx one_page_pdf pt_fails
    {| fname := "notes.TXT"; ftype := EmptyString; fsize := 14 |} None w0
  = (Ok "plain contents", after_read ReadText w0).
Proof.
  apply (extractText_txt some_text no_docx one_page_pdf pt_fails
           {| fname := "notes.TXT"; ftype := EmptyString; fsize := 14 |} None w0);
    reflexivity.
Defined.

(** Extra: a file that the dispatch sends to the DOCX branch (not plain
    text; DOCX MIME type or name ending in .docx) and that passes
    validation is read once with the DOCX reader; [extractText] resolves
    with mammoth's raw text, or rejects with "Failed to extract text:
    Failed to read DOCX file" (reader error) or "Failed to extract text:
    Failed to extract text from DOCX file" (mammoth error). *)
Theorem extractText_docx : forall rt rd rp pt f st w,
  validateFile f = Ok tt -> txt_branch f = false -> docx_branch f = true ->
  extractText rt rd rp pt f st w =
  match rd f with
  | DocxText v => (Ok v, after_read ReadDocx w)
  | DocxReadError =>
      (Throw (JsError "Failed to extract text: Failed to read DOCX file"), after_read ReadDocx w)
  | DocxParseError =>
      (Throw (JsError "Failed to extract text: Failed to extract text from DOCX file"),
       after_read ReadDocx w)
  end.
Proof.
  intros rt rd rp pt f st w Hv Ht Hd.
  rewrite extractText_unfold. unfold bind at 1, lift at 1. rewrite Hv, Ht, Hd.
  unfold try_catch, extractTextFromDocx, bind, emit.
  destruct (rd f); reflexivity.
Qed.

Definition docx_parse_fails (_ : File) : docx_read := DocxParseError.

Lemma extractText_docx_witness :
  extractText no_text docx_parse_fails one_page_pdf pt_fails
    {| fname := "brief.docx"; ftype := docx_mime; fsize := 2048 |} None w0
  = (Throw (JsError "Failed to extract text: Failed to extract text from DOCX file"),
     after_read ReadDocx w0).
Proof.
  apply (extractText_docx no_text docx_parse_fails one_page_pdf pt_fails
           {| fname := "brief.docx"; ftype := docx_mime; fsize := 2048 |} None w0);
    reflexivity.
Defined.

(** Extra: for every file that the dispatch does not send to the PDF
    branch, the result and the effects of [extractText] depend neither on
    the settings passed nor on the LLM cleaning call: the LLM is used
    only for PDFs. *)
Theorem extractText_non_pdf_no_llm : forall rt rd rp pt1 pt2 f st1 st2 w,
  routes_to_pdf f = false ->
  extractText rt rd rp pt1 f st1 w = extractText rt rd rp pt2 f st2 w.
Proof.
  intros rt rd rp pt1 pt2 f st1 st2 w H.
  rewrite !extractText_unfold. unfold bind, lift.
  destruct (validateFile f) as [[]|e]; [|reflexivity].
  unfold routes_to_pdf in H.
  destruct (txt_branch f), (docx_branch f), (pdf_branch f); simpl in H; try discriminate;
    reflexivity.
Qed.

Lemma extractText_non_pdf_no_llm_witness :
  extractText some_text no_docx one_page_pdf pt_fails
    {| fname := "a.txt"; ftype := "text/plain"; fsize := 1 |} (Some openai_settings) w0
  = extractText some_text no_docx one_page_pdf (fun _ _ => ret (ProcOk (JStr "x") JUndef 0))
    {| fname := "a.txt"; ftype := "text/plain"; fsize := 1 |} None w0.
Proof.
  apply extractText_non_pdf_no_llm. reflexivity.
Defined.

(** Extra: every rejection of [extractText] is either the validator's own
    error (the file failed validation, and it is passed on unchanged) or,
    for a file that passed validation, an [Error] whose message starts
    with "Failed to extract text: ". *)
Theorem extractText_rejection_shape : forall rt rd rp pt f st w e,
  fst (extractText rt rd rp pt f st w) = Throw e ->
  validateFile f = Throw e \/
  (validateFile f = Ok tt /\ exists m, e = JsError ("Failed to extract text: " ++ m)).
Proof.
  intros rt rd rp pt f st w e H.
  rewrite extractText_unfold in H. unfold bind at 1, lift at 1 in H.
  destruct (validateFile f) as [[]|e']; [|left; simpl in H; congruence].
  right. split; [reflexivity|].
  unfold try_catch, fail, throw in H.
  match type of H with
  | context [match ?m w with _ => _ end] => destruct (m w) as [[a|e0] w1]
  end; simpl in H; [discriminate|].
  injection H as <-. eexists; reflexivity.
Qed.

Lemma extractText_rejection_shape_witness :
  validateFile pdf_file = Ok tt /\
  exists m, JsError "Failed to extract text: PDF processing requires LLM settings for text cleaning"
            = JsError ("Failed to extract text: " ++ m).
Proof.
  destruct (extractText_rejection_shape no_text no_docx one_page_pdf pt_fails pdf_file None w0
              (JsError "Failed to extract text: PDF processing requires LLM settings for text cleaning")
              eq_refl) as [H|H].
  - discriminate H.
  - exact H.
Defined.

Lemma pages_text_app : forall ps1 ps2 acc,
  pages_text acc (ps1 ++ ps2) =
  match pages_text acc ps1 with Ok a => pages_text a ps2 | Throw e => Throw e end.
Proof.
  induction ps1 as [|items ps1 IH]; intros ps2 acc; [reflexivity|].
  simpl. destruct (page_strings items) as [ss|e]; [|reflexivity].
  destruct (String.eqb (String.concat " " ss) EmptyString); apply IH.
Qed.

Lemma pages_text_blank : forall pages acc,
  Forall (fun items => page_strings items = Ok []) pages -> pages_text acc pages = Ok acc.
Proof.
  induction pages as [|items pages IH]; intros acc H; [reflexivity|].
  inversion H as [|? ? Hi Hr]; subst. simpl. rewrite Hi. simpl. apply IH, Hr.
Qed.

(** Extra: a page from which no text survives the filters (every item
    lacks a [str] string, or has one that is blank after trimming) adds
    nothing to the extracted PDF text: removing it from the document
    leaves the result of the PDF extractor, text or error, unchanged. *)
Theorem pdf_text_blank_page_ignored : forall ps1 blank ps2,
  page_strings blank = Ok [] ->
  pdf_text (PdfPages (ps1 ++ blank :: ps2)) = pdf_text (PdfPages (ps1 ++ ps2)).
Proof.
  intros ps1 blank ps2 Hb. unfold pdf_text.
  rewrite !pages_text_app.
  destruct (pages_text EmptyString ps1) as [a|e]; [|reflexivity].
  simpl. rewrite Hb. reflexivity.
Qed.

Lemma pdf_text_blank_page_ignored_witness :
  pdf_text (PdfPages ([[JObj [("str", JStr "Page one")]]]
                      ++ [JObj [("str", JStr "   ")]; JObj [("str", JNum 3)]; JObj []]
                      :: [[JObj [("str", JStr "Page two")]]]))
  = pdf_text (PdfPages ([[JObj [("str", JStr "Page one")]]] ++ [[JObj [("str", JStr "Page two")]]])).
Proof.
  apply pdf_text_blank_page_ignored. reflexivity.
Defined.

(** Extra: an image-only PDF, where no page yields any text, makes
    [extractText] (with settings) reject with "Failed to extract text:
    Failed to extract text from PDF: No readable text found in PDF. ...
    Please ensure the PDF contains selectable text.", after the one read
    of the file and without any LLM call (the result and the world do not
    involve the cleaning call). *)
Theorem extractText_pdf_no_text : forall rt rd rp pt f s w pages,
  validateFile f = Ok tt -> routes_to_pdf f = true -> rp f = PdfPages pages ->
  Forall (fun items => page_strings items = Ok []) pages ->
  extractText rt rd rp pt f (Some s) w
  = (Throw (JsError ("Failed to extract text: Failed to extract text from PDF: " ++ no_text_message
                     ++ ". Please ensure the PDF contains selectable text.")), after_pdf_read w).
Proof.
  intros rt rd rp pt f s w pages Hv Hr Hp Hb.
  apply routes_to_pdf_iff in Hr as [Ht [Hd Hpdf]].
  rewrite extractText_unfold. unfold bind at 1, lift at 1. rewrite Hv, Ht, Hd, Hpdf.
  unfold try_catch, extractTextFromPdf, bind, emit, lift.
  rewrite Hp. unfold pdf_text. rewrite (pages_text_blank pages EmptyString Hb).
  reflexivity.
Qed.

Definition blank_pdf (_ : File) : pdf_read := PdfPages [[JObj [("str", JStr " ")]]; []].

Lemma extractText_pdf_no_text_witness :
  extractText no_text no_docx blank_pdf pt_fails pdf_file (Some openai_settings) w0
  = (Throw (JsError ("Failed to extract text: Failed to extract text from PDF: " ++ no_text_message
                     ++ ". Please ensure the PDF contains selectable text.")), after_pdf_read w0).
Proof.
  apply (extractText_pdf_no_text no_text no_docx blank_pdf pt_fails pdf_file openai_settings w0
           [[JObj [("str", JStr " ")]]; []]); try reflexivity.
  repeat constructor.
Defined.

(** The world after [console.warn(m)]. *)
Definition warned (m : string) (w : world) : world :=
  {| trace := EvWarn m :: trace w; clock := clock w |}.

(** Extra: [cleanTextWithLLM] rejects a blank raw text with "No text
    content to clean" before any LLM call. For a non-blank raw text it
    never rejects, and it logs exactly one warning exactly when it falls
    back to the raw text: none when the call succeeds with string content
    that is non-empty after trimming (which it returns trimmed); "LLM
    text cleaning failed, ..." on a reported failure or on empty or
    missing content; "LLM text cleaning error, ..." when the call throws
    or its content is neither a string nor null/undefined (so that
    [content?.trim] throws). *)
Theorem cleanTextWithLLM_warnings : forall pt raw s w,
  (trim raw = EmptyString ->
     cleanTextWithLLM pt raw s w = (Throw (JsError "No text content to clean"), w)) /\
  (trim raw <> EmptyString ->
     let P := cleaningPrompt raw in
     (forall c tk t w1, pt P s w = (Ok (ProcOk (JStr c) tk t), w1) -> trim c <> EmptyString ->
        cleanTextWithLLM pt raw s w = (Ok (trim c), w1)) /\
     (forall c tk t w1, pt P s w = (Ok (ProcOk (JStr c) tk t), w1) -> trim c = EmptyString ->
        cleanTextWithLLM pt raw s w = (Ok raw, warned warn_failed w1)) /\
     (forall c tk t w1, pt P s w = (Ok (ProcOk c tk t), w1) -> (c = JUndef \/ c = JNull) ->
        cleanTextWithLLM pt raw s w = (Ok raw, warned warn_failed w1)) /\
     (forall err t w1, pt P s w = (Ok (ProcErr err t), w1) ->
        cleanTextWithLLM pt raw s w = (Ok raw, warned warn_failed w1)) /\
     (forall c tk t w1, pt P s w = (Ok (ProcOk c tk t), w1) ->
        c <> JUndef -> c <> JNull -> (forall str, c <> JStr str) ->
        cleanTextWithLLM pt raw s w = (Ok raw, warned warn_error w1)) /\
     (forall e w1, pt P s w = (Throw e, w1) ->
        cleanTextWithLLM pt raw s w = (Ok raw, warned warn_error w1))).
Proof.
  intros pt raw s w. split.
  - intros H. unfold cleanTextWithLLM.
    rewrite H, orb_true_r. reflexivity.
  - intros H P.
    assert (E1 : String.eqb raw EmptyString = false).
    { apply String.eqb_neq. intros ->. apply H. reflexivity. }
    apply String.eqb_neq in H.
    unfold cleanTextWithLLM. rewrite E1, H. cbn [orb].
    unfold try_catch, bind, lift, ret, emit. fold P.
    repeat split.
    + intros c tk t w1 Hc Ht. rewrite Hc. simpl. apply String.eqb_neq in Ht. rewrite Ht. reflexivity.
    + intros c tk t w1 Hc Ht. rewrite Hc. simpl. rewrite Ht. reflexivity.
    + intros c tk t w1 Hc [-> | ->]; rewrite Hc; reflexivity.
    + intros err t w1 Hc. rewrite Hc. reflexivity.
    + intros c tk t w1 Hc N1 N2 N3. rewrite Hc.
      destruct c; try reflexivity; try congruence.
    + intros e w1 Hc. rewrite Hc. reflexivity.
Qed.

Lemma cleanTextWithLLM_warnings_witness :
  cleanTextWithLLM pt_fails "raw text" openai_settings w0 = (Ok "raw text", warned warn_failed w0).
Proof.
  destruct (cleanTextWithLLM_warnings pt_fails "raw text" openai_settings w0) as [_ H].
  apply (proj1 (proj2 (proj2 (proj2 (H ltac:(discriminate)))))
           "LLM error" 1000%Z w0 eq_refl).
Defined.

(* ------------------------------------------------------------------ *)
(** ** Further properties of the LLM client *)

(** The request [callAnthropic] sends. *)
Definition anthropic_request (prompt : string) (s : ConversionSettings) (p : LLMProvider) : request :=
  {| url := baseUrl p ++ "/messages";
     method := "POST";
     headers := [("Content-Type", "application/json");
                 ("x-api-key", apiKey s);
                 ("anthropic-version", "2023-06-01")];
     body := JObj [("model", JStr (model s));
                   ("messages", user_messages prompt);
                   ("max_tokens", JNum (maxTokens s));
                   ("temperature", JNum (temperature s))] |}.

Ltac destruct_results :=
  repeat match goal with
         | |- context [match ?x with Ok _ => _ | Throw _ => _ end] => destruct x
         end.

Lemma fail_with_error_body_world : forall r dflt w,
  snd (fail_with_error_body r dflt w) = w /\ exists e, fst (fail_with_error_body r dflt w) = Throw e.
Proof.
  intros r dflt w. unfold fail_with_error_body, bind, resp_json, getM, opt_getM, lift, fail, throw, ret.
  destruct (json_body r); cbv beta iota; destruct_results;
    (split; [reflexivity|eexists; reflexivity]).
Qed.

Lemma callProvider_anthropic : forall net prompt s,
  provider s = "anthropic" ->
  callProvider net prompt s = callAnthropic net prompt s (provider_of "anthropic").
Proof. intros net prompt s H. unfold callProvider. rewrite H. reflexivity. Qed.

Lemma callProvider_groq : forall net prompt s,
  provider s = "groq" -> callProvider net prompt s = callGroq net prompt s (provider_of "groq").
Proof. intros net prompt s H. unfold callProvider. rewrite H. reflexivity. Qed.

Lemma callOpenAI_sends : forall net P s p w, apiKey s <> EmptyString ->
  exists r w', callOpenAI net P s p w = (r, w') /\
               trace w' = EvFetch (openai_request P s p) :: trace w.
Proof.
  intros net P s p w H. unfold callOpenAI. apply String.eqb_neq in H. rewrite H.
  unfold bind at 1, fetch. fold (openai_request P s p).
  destruct (net (openai_request P s p)) as [d [e|r]]; [do 2 eexists; split; reflexivity|].
  destruct (ok r); cbn [negb].
  - unfold bind, resp_json. destruct (json_body r) as [msg|v]; unfold ret; cbv beta iota;
      [do 2 eexists; split; reflexivity|].
    match goal with |- context [read_chat_completion v ?w1] =>
      pose proof (read_chat_completion_world v w1) as Hw;
      destruct (read_chat_completion v w1) as [r' w'] end.
    simpl in Hw. subst w'. do 2 eexists. split; reflexivity.
  - match goal with |- context [fail_with_error_body r ?m ?w1] =>
      destruct (fail_with_error_body_world r m w1) as [Hw _];
      destruct (fail_with_error_body r m w1) as [r' w'] end.
    simpl in Hw. subst w'. do 2 eexists. split; reflexivity.
Qed.

Lemma callGroq_sends : forall net P s p w, apiKey s <> EmptyString ->
  exists r w', callGroq net P s p w = (r, w') /\
               trace w' = EvFetch (openai_request P s p) :: trace w.
Proof.
  intros net P s p w H.
  unfold callGroq. apply String.eqb_neq in H. rewrite H.
  unfold bind at 1, fetch. fold (openai_request P s p).
  destruct (net (openai_request P s p)) as [d [e|r]]; [do 2 eexists; split; reflexivity|].
  destruct (ok r); cbn [negb].
  - unfold bind, resp_json. destruct (json_body r) as [msg|v]; unfold ret; cbv beta iota;
      [do 2 eexists; split; reflexivity|].
    match goal with |- context [read_chat_completion v ?w1] =>
      pose proof (read_chat_completion_world v w1) as Hw;
      destruct (read_chat_completion v w1) as [r' w'] end.
    simpl in Hw. subst w'. do 2 eexists. split; reflexivity.
  - match goal with |- context [fail_with_error_body r ?m ?w1] =>
      destruct (fail_with_error_body_world r m w1) as [Hw _];
      destruct (fail_with_error_body r m w1) as [r' w'] end.
    simpl in Hw. subst w'. do 2 eexists. split; reflexivity.
Qed.

Lemma callAnthropic_sends : forall net P s p w, apiKey s <> EmptyString ->
  exists r w', callAnthropic net P s p w = (r, w') /\
               trace w' = EvFetch (anthropic_request P s p) :: trace w.
Proof.
  intros net P s p w H. unfold callAnthropic. apply String.eqb_neq in H. rewrite H.
  unfold bind at 1, fetch. fold (anthropic_request P s p).
  destruct (net (anthropic_request P s p)) as [d [e|r]]; [do 2 eexists; split; reflexivity|].
  destruct (ok r); cbn [negb].
  - unfold bind, resp_json, getM, idxM, opt_getM, lift, ret.
    destruct (json_body r) as [msg|v]; cbv beta iota; [do 2 eexists; split; reflexivity|].
    destruct_results; do 2 eexists; split; reflexivity.
  - match goal with |- context [fail_with_error_body r ?m ?w1] =>
      destruct (fail_with_error_body_world r m w1) as [Hw _];
      destruct (fail_with_error_body r m w1) as [r' w'] end.
    simpl in Hw. subst w'. do 2 eexists. split; reflexivity.
Qed.

Lemma convertToMarkdown_world : forall net text s examples w r w1,
  trim text <> EmptyString ->
  callProvider net (buildPrompt text examples (Some (customPrompt s))) s w = (r, w1) ->
  exists c, convertToMarkdown net text s examples w = (Ok c, w1).
Proof.
  intros net text s examples w r w1 Ht H.
  rewrite (convertToMarkdown_nonblank net text s examples w Ht), H.
  destruct r; eexists; reflexivity.
Qed.

Lemma custom_base_local_nonempty : forall s, custom_base s (provider_of "local") <> EmptyString.
Proof.
  intros s. unfold custom_base, or_str.
  destruct (customBaseUrl s) as [u|]; [|discriminate].
  destruct (String.eqb u EmptyString) eqn:E; [discriminate|].
  apply String.eqb_neq; exact E.
Qed.

(** Extra: [requiresApiKey] is what the client enforces. The registry
    marks every provider but "local" as needing a key; with an empty key
    and a non-blank text, a conversion with provider "openai",
    "anthropic" or "groq" fails at once with "OpenAI API key is
    required", "Anthropic API key is required" or "Groq API key is
    required", processing time 0 and no request, while provider "local"
    still sends its one request. *)
Theorem llm_missing_key_no_request :
  (forall p, In p LLM_PROVIDERS -> requiresApiKey p = negb (String.eqb (id p) "local")) /\
  (forall net text s examples w,
     trim text <> EmptyString -> apiKey s = EmptyString ->
     (provider s = "openai" ->
        convertToMarkdown net text s examples w = (Ok (ConvErr "OpenAI API key is required" 0), w)) /\
     (provider s = "anthropic" ->
        convertToMarkdown net text s examples w = (Ok (ConvErr "Anthropic API key is required" 0), w)) /\
     (provider s = "groq" ->
        convertToMarkdown net text s examples w = (Ok (ConvErr "Groq API key is required" 0), w)) /\
     (provider s = "local" ->
        exists r w', convertToMarkdown net text s examples w = (Ok r, w') /\
          trace w' = EvFetch (custom_request (buildPrompt text examples (Some (customPrompt s))) s
                                             (provider_of "local")) :: trace w)).
Proof.
  split.
  - intros p Hp. simpl in Hp. intuition (subst; reflexivity).
  - intros net text s examples w Ht Hk.
    set (P := buildPrompt text examples (Some (customPrompt s))).
    rewrite (convertToMarkdown_nonblank net text s examples w Ht). fold P.
    repeat split.
    + intros Hp. rewrite (callProvider_openai net P s Hp). unfold callOpenAI. rewrite Hk.
      simpl. rewrite Z.sub_diag. reflexivity.
    + intros Hp. rewrite (callProvider_anthropic net P s Hp). unfold callAnthropic. rewrite Hk.
      simpl. rewrite Z.sub_diag. reflexivity.
    + intros Hp. rewrite (callProvider_groq net P s Hp). unfold callGroq. rewrite Hk.
      simpl. rewrite Z.sub_diag. reflexivity.
    + intros Hp. rewrite (callProvider_local net P s Hp).
      destruct (callCustomAPI_fetches net P s (provider_of "local") w
                  (custom_base_local_nonempty s)) as [r [w' [Hc Htr]]].
      rewrite Hc. destruct r; do 2 eexists; split; try reflexivity; exact Htr.
Qed.

Definition groq_no_key : ConversionSettings :=
  {| provider := "groq"; model := "llama3-8b-8192"; apiKey := EmptyString;
     temperature := 1 # 10; maxTokens := 4000; useExamples := false;
     selectedExamples := []; customPrompt := EmptyString;
     customBaseUrl := None; customModel := None |}.

Lemma llm_missing_key_no_request_witness :
  requiresApiKey (provider_of "anthropic") = true /\
  convertToMarkdown net_150 "Statement of Claim" groq_no_key [] w0
  = (Ok (ConvErr "Groq API key is required" 0), w0).
Proof.
  split.
  - exact (proj1 llm_missing_key_no_request (provider_of "anthropic") ltac:(simpl; auto)).
  - destruct (proj2 llm_missing_key_no_request net_150 "Statement of Claim" groq_no_key [] w0)
      as [_ [_ [H _]]].
    + vm_compute. discriminate.
    + reflexivity.
    + apply H. reflexivity.
Defined.

(** Extra: with a non-empty key and a non-blank text, a conversion with
    provider "openai", "groq" or "anthropic" sends exactly one request,
    whatever the answer: a POST to the registry's endpoint of that
    provider, carrying the key (as [Authorization: Bearer <key>] for
    OpenAI and Groq, as [x-api-key] with [anthropic-version: 2023-06-01]
    for Anthropic) and a JSON body with [settings.model], the single user
    message holding the prompt, [temperature] and [max_tokens] from the
    settings. *)
Theorem keyed_provider_request : forall net text s examples w,
  trim text <> EmptyString -> apiKey s <> EmptyString ->
  let P := buildPrompt text examples (Some (customPrompt s)) in
  (provider s = "openai" ->
     exists r w', convertToMarkdown net text s examples w = (Ok r, w') /\
       trace w' = EvFetch {| url := "https://api.openai.com/v1/chat/completions";
                             method := "POST";
                             headers := [("Content-Type", "application/json");
                                         ("Authorization", "Bearer " ++ apiKey s)];
                             body := chat_body (model s) P s |} :: trace w) /\
  (provider s = "groq" ->
     exists r w', convertToMarkdown net text s examples w = (Ok r, w') /\
       trace w' = EvFetch {| url := "https://api.groq.com/openai/v1/chat/completions";
                             method := "POST";
                             headers := [("Content-Type", "application/json");
                                         ("Authorization", "Bearer " ++ apiKey s)];
                             body := chat_body (model s) P s |} :: trace w) /\
  (provider s = "anthropic" ->
     exists r w', convertToMarkdown net text s examples w = (Ok r, w') /\
       trace w' = EvFetch {| url := "https://api.anthropic.com/v1/messages";
                             method := "POST";
                             headers := [("Content-Type", "application/json");
                                         ("x-api-key", apiKey s);
                                         ("anthropic-version", "2023-06-01")];
                             body := JObj [("model", JStr (model s));
                                           ("messages", user_messages P);
                                           ("max_tokens", JNum (maxTokens s));
                                           ("temperature", JNum (temperature s))] |} :: trace w).
Proof.
  intros net text s examples w Ht Hk P.
  split; [|split]; intros Hp.
  - destruct (callOpenAI_sends net P s (provider_of "openai") w Hk) as [r [w' [Hc Htr]]].
    rewrite <- (callProvider_openai net P s Hp) in Hc.
    destruct (convertToMarkdown_world net text s examples w r w' Ht Hc) as [c Hm].
    exists c, w'. split; [exact Hm|exact Htr].
  - destruct (callGroq_sends net P s (provider_of "groq") w Hk) as [r [w' [Hc Htr]]].
    rewrite <- (callProvider_groq net P s Hp) in Hc.
    destruct (convertToMarkdown_world net text s examples w r w' Ht Hc) as [c Hm].
    exists c, w'. split; [exact Hm|exact Htr].
  - destruct (callAnthropic_sends net P s (provider_of "anthropic") w Hk) as [r [w' [Hc Htr]]].
    rewrite <- (callProvider_anthropic net P s Hp) in Hc.
    destruct (convertToMarkdown_world net text s examples w r w' Ht Hc) as [c Hm].
    exists c, w'. split; [exact Hm|exact Htr].
Qed.

Lemma keyed_provider_request_witness :
  exists r w', convertToMarkdown net_150 "test text" openai_settings [] w0 = (Ok r, w') /\
    trace w' = [EvFetch {| url := "https://api.openai.com/v1/chat/completions";
                           method := "POST";
                           headers := [("Content-Type", "application/json");
                                       ("Authorization", "Bearer test-key")];
                           body := chat_body "gpt-4"
                                     (buildPrompt "test text" [] (Some EmptyString))
                                     openai_settings |}].
Proof.
  refine (proj1 (keyed_provider_request net_150 "test text" openai_settings [] w0 _ _) eq_refl).
  - vm_compute. discriminate.
  - discriminate.
Defined.

(** The error path of the three keyed providers, with its default
    message. *)
Definition keyed_defaults : list (string * string) :=
  [("openai", "OpenAI API request failed");
   ("anthropic", "Anthropic API request failed");
   ("groq", "Groq API request failed")].

Lemma keyed_non_ok : forall net P s w pid dflt d r,
  In (pid, dflt) keyed_defaults -> provider s = pid -> apiKey s <> EmptyString ->
  (forall req, net req = (d, FetchResolve r)) -> ok r = false ->
  exists req, callProvider net P s w
    = fail_with_error_body r dflt {| trace := EvFetch req :: trace w; clock := clock w + Z.of_nat d |}.
Proof.
  intros net P s w pid dflt d r Hin Hp Hk Hn Ho.
  apply String.eqb_neq in Hk.
  simpl in Hin. destruct Hin as [E|[E|[E|[]]]]; injection E as <- <-.
  - rewrite (callProvider_openai net P s Hp). unfold callOpenAI. rewrite Hk.
    unfold bind at 1, fetch. rewrite Hn, Ho. eexists; reflexivity.
  - rewrite (callProvider_anthropic net P s Hp). unfold callAnthropic. rewrite Hk.
    unfold bind at 1, fetch. rewrite Hn, Ho. eexists; reflexivity.
  - rewrite (callProvider_groq net P s Hp). unfold callGroq. rewrite Hk.
    unfold bind at 1, fetch. rewrite Hn, Ho. eexists; reflexivity.
Qed.

(** Extra: when OpenAI, Anthropic or Groq answers with a non-2xx status,
    the conversion fails with the server's [error.message] when that is a
    non-empty string, with the provider's default ("OpenAI API request
    failed", "Anthropic API request failed", "Groq API request failed")
    when the JSON body has no [error] field, and with the parse error's
    message when the body is not JSON; the processing time is the time
    the request took. *)
Theorem keyed_provider_error_body : forall net text s examples w pid dflt d r,
  In (pid, dflt) keyed_defaults -> provider s = pid -> apiKey s <> EmptyString ->
  trim text <> EmptyString ->
  (forall req, net req = (d, FetchResolve r)) -> ok r = false ->
  (forall body e m, json_body r = inr body -> get body "error" = Ok e ->
     opt_get e "message" = Ok (JStr m) -> m <> EmptyString ->
     fst (convertToMarkdown net text s examples w) = Ok (ConvErr m (Z.of_nat d))) /\
  (forall body, json_body r = inr body -> get body "error" = Ok JUndef ->
     fst (convertToMarkdown net text s examples w) = Ok (ConvErr dflt (Z.of_nat d))) /\
  (forall msg, json_body r = inl msg ->
     fst (convertToMarkdown net text s examples w) = Ok (ConvErr msg (Z.of_nat d))).
Proof.
  intros net text s examples w pid dflt d r Hin Hp Hk Ht Hn Ho.
  rewrite (convertToMarkdown_nonblank net text s examples w Ht).
  destruct (keyed_non_ok net (buildPrompt text examples (Some (customPrompt s))) s w pid dflt d r
              Hin Hp Hk Hn Ho) as [req Hc].
  rewrite Hc.
  assert (Hd : (clock w + Z.of_nat d - clock w = Z.of_nat d)%Z) by lia.
  unfold fail_with_error_body, bind, resp_json, getM, opt_getM, lift, fail, throw, ret.
  repeat split.
  - intros body e m Hj He Hm Hne. rewrite Hj. cbv beta iota. rewrite He, Hm.
    cbn [truthy fst clock]. apply String.eqb_neq in Hne. rewrite Hne. cbn [negb js_String error_message].
    rewrite Hd. reflexivity.
  - intros body Hj He. rewrite Hj. cbv beta iota. rewrite He. cbn [opt_get truthy fst clock error_message].
    rewrite Hd. reflexivity.
  - intros msg Hj. rewrite Hj. cbn [fst clock error_message]. rewrite Hd. reflexivity.
Qed.

Definition response_401 : response :=
  {| status := 401; statusText := "Unauthorized";
     json_body := inr (JObj [("error", JObj [("message", JStr "Invalid API key")])]);
     text_body := EmptyString |}.

Definition net_401 (_ : request) : nat * fetch_outcome := (5%nat, FetchResolve response_401).

Lemma keyed_provider_error_body_witness :
  fst (convertToMarkdown net_401 "test text" openai_settings [] w0)
  = Ok (ConvErr "Invalid API key" (Z.of_nat 5)).
Proof.
  refine (proj1 (keyed_provider_error_body net_401 "test text" openai_settings [] w0
                   "openai" "OpenAI API request failed" 5 response_401
                   _ eq_refl _ _ (fun _ => eq_refl) eq_refl)
                _ _ "Invalid API key" eq_refl eq_refl eq_refl _).
  - simpl; auto.
  - discriminate.
  - vm_compute. discriminate.
  - discriminate.
Defined.

(** Extra: when the local/custom endpoint answers with a non-2xx status,
    the conversion fails with "Local API request failed: <status>
    <statusText>. <response text>", the processing time being the time
    the request took. *)
Theorem local_api_error_message : forall net text s examples w d r,
  provider s = "local" -> trim text <> EmptyString ->
  (forall req, net req = (d, FetchResolve r)) -> ok r = false ->
  fst (convertToMarkdown net text s examples w)
  = Ok (ConvErr ("Local API request failed: " ++ Z_to_string (status r) ++ " "
                 ++ statusText r ++ ". " ++ text_body r) (Z.of_nat d)).
Proof.
  intros net text s examples w d r Hp Ht Hn Ho.
  rewrite (convertToMarkdown_nonblank net text s examples w Ht).
  rewrite (callProvider_local net _ s Hp). unfold callCustomAPI.
  pose proof (custom_base_local_nonempty s) as Hb. apply String.eqb_neq in Hb. rewrite Hb.
  unfold bind at 1, fetch. rewrite Hn, Ho. unfold fail, throw.
  cbn [negb fst clock error_message].
  f_equal. f_equal. lia.
Qed.

Definition response_500 : response :=
  {| status := 500; statusText := "Internal Server Error"; json_body := inl "Unexpected token";
     text_body := "model not loaded" |}.

Definition net_500 (_ : request) : nat * fetch_outcome := (2%nat, FetchResolve response_500).

Lemma local_api_error_message_witness :
  fst (convertToMarkdown net_500 "test text" (local_settings None None) [] w0)
  = Ok (ConvErr ("Local API request failed: " ++ Z_to_string 500 ++ " "
                 ++ "Internal Server Error" ++ ". " ++ "model not loaded") (Z.of_nat 2)).
Proof.
  apply (local_api_error_message net_500 "test text" (local_settings None None) [] w0 2 response_500).
  - reflexivity.
  - vm_compute. discriminate.
  - reflexivity.
  - reflexivity.
Defined.

(** Extra: for a successful Anthropic answer, the conversion's markdown
    is [content[0].text] and [tokensUsed] is [input_tokens +
    output_tokens] of [usage], or 0 when [usage] is absent; the
    processing time is the time the request took. *)
Theorem anthropic_success_tokens : forall net text s examples w d r body ct c0 c u,
  provider s = "anthropic" -> apiKey s <> EmptyString -> trim text <> EmptyString ->
  (forall req, net req = (d, FetchResolve r)) -> ok r = true -> json_body r = inr body ->
  get body "content" = Ok ct -> idx ct 0 = Ok c0 -> get c0 "text" = Ok c ->
  get body "usage" = Ok u ->
  (forall a b, opt_get u "input_tokens" = Ok (JNum a) -> opt_get u "output_tokens" = Ok (JNum b) ->
     fst (convertToMarkdown net text s examples w) = Ok (ConvOk c (JNum (a + b)) (Z.of_nat d))) /\
  (u = JUndef ->
     fst (convertToMarkdown net text s examples w) = Ok (ConvOk c (JNum 0) (Z.of_nat d))).
Proof.
  intros net text s examples w d r body ct c0 c u Hp Hk Ht Hn Ho Hj H1 H2 H3 H4.
  assert (Hd : (clock w + Z.of_nat d - clock w = Z.of_nat d)%Z) by lia.
  assert (Hc : forall i o, opt_get u "input_tokens" = Ok i -> opt_get u "output_tokens" = Ok o ->
            fst (convertToMarkdown net text s examples w)
            = Ok (ConvOk c (js_add (nullish i (JNum 0)) (nullish o (JNum 0))) (Z.of_nat d))).
  { intros i o Hi Hoo.
    rewrite (convertToMarkdown_nonblank net text s examples w Ht).
    rewrite (callProvider_anthropic net _ s Hp). unfold callAnthropic.
    apply String.eqb_neq in Hk. rewrite Hk.
    unfold bind at 1, fetch. rewrite Hn. cbv beta iota zeta. rewrite Ho. cbn [negb].
    unfold bind, resp_json, getM, idxM, opt_getM, lift, ret. rewrite Hj. cbv beta iota.
    rewrite H1, H2, H3, H4, Hi, Hoo. cbn [fst clock content tokensUsed].
    do 2 f_equal. exact Hd. }
  split.
  - intros a b Ha Hb. exact (Hc _ _ Ha Hb).
  - intros ->. exact (Hc JUndef JUndef eq_refl eq_refl).
Qed.

Definition anthropic_settings : ConversionSettings :=
  {| provider := "anthropic"; model := "claude-3-haiku-20240307"; apiKey := "test-key";
     temperature := 1 # 10; maxTokens := 4000; useExamples := false;
     selectedExamples := []; customPrompt := EmptyString;
     customBaseUrl := None; customModel := None |}.

Definition anthropic_body : jsval :=
  JObj [("content", JArr [JObj [("text", JStr "# Claim")]]);
        ("usage", JObj [("input_tokens", JNum 100); ("output_tokens", JNum 20)])].

Definition net_anthropic (_ : request) : nat * fetch_outcome :=
  (4%nat, FetchResolve {| status := 200; statusText := "OK"; json_body := inr anthropic_body;
                          text_body := EmptyString |}).

Lemma anthropic_success_tokens_witness :
  fst (convertToMarkdown net_anthropic "test text" anthropic_settings [] w0)
  = Ok (ConvOk (JStr "# Claim") (JNum (100 + 20)) (Z.of_nat 4)).
Proof.
  refine (proj1 (anthropic_success_tokens net_anthropic "test text" anthropic_settings [] w0 4
     {| status := 200; statusText := "OK"; json_body := inr anthropic_body; text_body := EmptyString |}
     anthropic_body (JArr [JObj [("text", JStr "# Claim")]]) (JObj [("text", JStr "# Claim")])
     (JStr "# Claim") (JObj [("input_tokens", JNum 100); ("output_tokens", JNum 20)])
     eq_refl _ _ (fun _ => eq_refl) eq_refl eq_refl eq_refl eq_refl eq_refl eq_refl)
     100 20 eq_refl eq_refl).
  - discriminate.
  - vm_compute. discriminate.
Defined.




(** Extra: examples are listed in the order given and numbered
    consecutively: the block for [l1 ++ l2] starting at number [n] is the
    block for [l1] followed by the block for [l2] starting right after
    the numbers used by [l1]. *)
Theorem examples_block_app : forall l1 l2 n,
  examples_block n (l1 ++ l2) = examples_block n l1 ++ examples_block (n + List.length l1) l2.
Proof.
  induction l1 as [|ex l1 IH]; intros l2 n; cbn [examples_block List.app List.length].
  - rewrite Nat.add_0_r. reflexivity.
  - rewrite IH. replace (n + S (List.length l1))%nat with (S n + List.length l1)%nat by lia.
    rewrite !string_app_assoc. reflexivity.
Qed.

(* ------------------------------------------------------------------ *)
(** ** Properties of the callers *)

(** Extra: [handleConvert] never reaches its [catch] block. Without a
    configured provider it only opens the settings page, with no request
    whether or not a document is loaded; with one but no document it
    does nothing; with both, it stores exactly the result
    [convertToMarkdown] resolves with, for the document's text and the
    selected examples. *)
Theorem handleConvert_outcomes : forall net doc s examples w,
  (isConfigured s = false -> handleConvert net doc s examples w = (Ok ConvertOpenSettings, w)) /\
  (isConfigured s = true -> doc = None -> handleConvert net doc s examples w = (Ok ConvertSkipped, w)) /\
  (forall d, isConfigured s = true -> doc = Some d ->
     exists r w', convertToMarkdown net (extractedText d) s (selectedExampleData s examples) w = (Ok r, w') /\
                  handleConvert net doc s examples w = (Ok (ConvertResult r), w')).
Proof.
  intros net doc s examples w. split; [|split].
  - intros H. unfold handleConvert. rewrite H. destruct doc; reflexivity.
  - intros H ->. unfold handleConvert. rewrite H. reflexivity.
  - intros d H ->. unfold handleConvert. rewrite H. cbn [negb].
    unfold try_catch, bind, ret.
    destruct (String.eqb (trim (extractedText d)) EmptyString) eqn:E.
    + exists (ConvErr "No text content provided for conversion" 0), w.
      assert (C : convertToMarkdown net (extractedText d) s (selectedExampleData s examples) w
                  = (Ok (ConvErr "No text content provided for conversion" 0), w)).
      { unfold convertToMarkdown. rewrite E, orb_true_r. reflexivity. }
      rewrite C. split; reflexivity.
    + apply String.eqb_neq in E.
      rewrite (convertToMarkdown_nonblank net _ s _ w E).
      destruct (callProvider _ _ _ _) as [[a|e] w1]; do 2 eexists; split; reflexivity.
Qed.

Definition pleading_doc : DocumentInfo :=
  {| filename := "claim.txt"; size := 18; type := "text/plain";
     extractedText := "Statement of Claim" |}.

Lemma handleConvert_outcomes_witness :
  handleConvert net_150 (Some pleading_doc) groq_no_key [] w0 = (Ok ConvertOpenSettings, w0).
Proof.
  apply (proj1 (handleConvert_outcomes net_150 (Some pleading_doc) groq_no_key [] w0)).
  reflexivity.
Defined.

Lemma find_provider_cases : forall pid p, find_provider pid = Some p ->
  (pid = "local" \/ pid = "openai" \/ pid = "anthropic" \/ pid = "groq") /\ p = provider_of pid.
Proof.
  intros pid p H. unfold provider_of. rewrite H. split; [|reflexivity].
  unfold find_provider in H. apply find_some in H as [Hin He].
  apply String.eqb_eq in He. subst pid.
  simpl in Hin. intuition (subst; simpl; auto).
Qed.

Lemma trim_nonblank_nonempty : forall k, trim k <> EmptyString -> k <> EmptyString.
Proof. intros k H ->. apply H. reflexivity. Qed.

(** Extra: the readiness check of [App] is enough for a request to go
    out. For settings it deems configured whose provider is in the
    registry, converting a document whose text is not blank sends exactly
    one request (the missing-key and missing-base-URL errors cannot
    occur), and the outcome is a stored result. *)
Theorem handleConvert_configured_sends : forall net d s examples w p,
  isConfigured s = true -> find_provider (provider s) = Some p ->
  trim (extractedText d) <> EmptyString ->
  exists r req w', handleConvert net (Some d) s examples w = (Ok (ConvertResult r), w') /\
                   trace w' = EvFetch req :: trace w.
Proof.
  intros net d s examples w p Hc Hf Ht.
  destruct (find_provider_cases _ _ Hf) as [Hp _].
  set (P := buildPrompt (extractedText d) (selectedExampleData s examples) (Some (customPrompt s))).
  assert (Hk : provider s <> "local" -> apiKey s <> EmptyString).
  { intros N. unfold isConfigured in Hc.
    apply String.eqb_neq in N. rewrite N in Hc. cbn [orb] in Hc.
    apply trim_nonblank_nonempty. apply String.eqb_neq.
    destruct (String.eqb (trim (apiKey s)) EmptyString); [discriminate|reflexivity]. }
  assert (Hs : exists r1 req w1, callProvider net P s w = (r1, w1) /\ trace w1 = EvFetch req :: trace w).
  { destruct Hp as [Hp|[Hp|[Hp|Hp]]].
    - rewrite (callProvider_local net P s Hp).
      destruct (callCustomAPI_fetches net P s (provider_of "local") w (custom_base_local_nonempty s))
        as [r1 [w1 [H1 H2]]]. eauto.
    - rewrite (callProvider_openai net P s Hp).
      destruct (callOpenAI_sends net P s (provider_of "openai") w (Hk ltac:(rewrite Hp; discriminate)))
        as [r1 [w1 [H1 H2]]]. eauto.
    - rewrite (callProvider_anthropic net P s Hp).
      destruct (callAnthropic_sends net P s (provider_of "anthropic") w (Hk ltac:(rewrite Hp; discriminate)))
        as [r1 [w1 [H1 H2]]]. eauto.
    - rewrite (callProvider_groq net P s Hp).
      destruct (callGroq_sends net P s (provider_of "groq") w (Hk ltac:(rewrite Hp; discriminate)))
        as [r1 [w1 [H1 H2]]]. eauto. }
  destruct Hs as [r1 [req [w1 [Hcall Htr]]]].
  destruct (convertToMarkdown_world net (extractedText d) s (selectedExampleData s examples) w r1 w1
              Ht Hcall) as [c Hm].
  exists c, req, w1. split; [|exact Htr].
  unfold handleConvert. rewrite Hc. cbn [negb].
  unfold try_catch, bind, ret. rewrite Hm. reflexivity.
Qed.

Lemma handleConvert_configured_sends_witness :
  exists r req w', handleConvert net_150 (Some pleading_doc) openai_settings [] w0
                   = (Ok (ConvertResult r), w') /\ trace w' = EvFetch req :: trace w0.
Proof.
  apply (handleConvert_configured_sends net_150 pleading_doc openai_settings [] w0
           (provider_of "openai")).
  - reflexivity.
  - reflexivity.
  - vm_compute. discriminate.
Defined.

(** Extra: when the settings say the LLM is not configured (provider
    other than "local" and a key that is blank after trimming), every
    file that looks like a PDF (MIME type application/pdf or lower-cased
    name ending in .pdf) is refused by [FileUpload] with "PDF processing
    requires LLM configuration. Please configure your LLM provider in
    settings first.", before the size and type validation and without
    reading the file. *)
Theorem handleFiles_unconfigured_pdf : forall rt rd rp pt s f rest w,
  isConfigured s = false -> pdf_branch f = true ->
  handleFiles rt rd rp pt (Some s) (f :: rest) w = (Ok (UploadError pdf_config_message), w).
Proof.
  intros rt rd rp pt s f rest w Hc Hp. unfold handleFiles, validateFileForPDF.
  unfold pdf_branch in Hp. cbv zeta. rewrite Hp, Hc. reflexivity.
Qed.

Definition big_pdf : File := {| fname := "bundle.PDF"; ftype := EmptyString; fsize := 50000000 |}.

Lemma handleFiles_unconfigured_pdf_witness :
  handleFiles no_text no_docx one_page_pdf pt_fails (Some groq_no_key) [big_pdf] w0
  = (Ok (UploadError pdf_config_message), w0).
Proof.
  apply handleFiles_unconfigured_pdf; reflexivity.
Defined.

(** Extra: [FileUpload]'s PDF test and [extractText]'s dispatch disagree
    on a text/plain file whose name ends in .pdf. Such a file, when
    valid, is read by [extractText] as plain text with no LLM involved,
    yet with unconfigured settings [FileUpload] refuses it with the LLM
    configuration message and never extracts it. *)
Theorem handleFiles_text_named_pdf : forall rt rd rp pt s f w t,
  isConfigured s = false -> ftype f = "text/plain" ->
  endsWith (toLowerCase (fname f)) ".pdf" = true -> validateFile f = Ok tt -> rt f = Some t ->
  fst (extractText rt rd rp pt f (Some s) w) = Ok t /\
  handleFiles rt rd rp pt (Some s) [f] w = (Ok (UploadError pdf_config_message), w).
Proof.
  intros rt rd rp pt s f w t Hc Ht He Hv Hr. split.
  - rewrite extractText_unfold. unfold bind at 1, lift at 1. rewrite Hv.
    unfold txt_branch. rewrite Ht. cbn [String.eqb orb].
    unfold try_catch, extractTextFromTxt, bind, emit. rewrite Hr. reflexivity.
  - unfold handleFiles, validateFileForPDF. cbv zeta. rewrite He, orb_true_r, Hc. reflexivity.
Qed.

Definition scan_pdf_txt : File := {| fname := "scan.pdf"; ftype := "text/plain"; fsize := 14 |}.

Lemma handleFiles_text_named_pdf_witness :
  fst (extractText some_text no_docx one_page_pdf pt_fails scan_pdf_txt (Some groq_no_key) w0)
    = Ok "plain contents" /\
  handleFiles some_text no_docx one_page_pdf pt_fails (Some groq_no_key) [scan_pdf_txt] w0
    = (Ok (UploadError pdf_config_message), w0).
Proof.
  apply handleFiles_text_named_pdf; reflexivity.
Defined.

Lemma validateFile_errors : forall f e,
  validateFile f = Throw e -> e = JsError size_message \/ e = JsError type_message.
Proof.
  intros f e H. unfold validateFile in H.
  destruct (negb (maxFileSize =? 0)%Z && (maxFileSize <? fsize f)%Z); [left; congruence|].
  destruct (negb _ && negb _); [right; congruence|discriminate].
Qed.

Lemma extractText_errors : forall rt rd rp pt f st w e,
  fst (extractText rt rd rp pt f st w) = Throw e ->
  e = JsError size_message \/ e = JsError type_message \/
  exists m, e = JsError ("Failed to extract text: " ++ m).
Proof.
  intros rt rd rp pt f st w e H.
  rewrite extractText_unfold in H. unfold bind at 1, lift at 1 in H.
  destruct (validateFile f) as [[]|e'] eqn:Hv.
  - right; right.
    unfold try_catch, fail, throw in H.
    match type of H with
    | context [match ?m w with _ => _ end] => destruct (m w) as [[a|e0] w1]
    end; simpl in H; [discriminate|].
    injection H as <-. eexists; reflexivity.
  - simpl in H. injection H as He. subst e.
    destruct (validateFile_errors f e' Hv) as [->| ->]; auto.
Qed.

(** Extra: [handleFiles] never rejects, and the message it shows is
    always one of the code's own: the LLM configuration message, the
    size message "File size must be less than 10 MB", the type message
    "Please upload a TXT, DOCX, or PDF file", or a message starting with
    "Failed to extract text: ". Its fallback text "Failed to process
    file" is never shown, since [extractText] only throws [Error]s. *)
Theorem handleFiles_messages : forall rt rd rp pt st files w,
  (exists o w', handleFiles rt rd rp pt st files w = (Ok o, w')) /\
  (forall m w', handleFiles rt rd rp pt st files w = (Ok (UploadError m), w') ->
     m = pdf_config_message \/ m = "File size must be less than 10 MB" \/
     m = "Please upload a TXT, DOCX, or PDF file" \/
     exists m', m = "Failed to extract text: " ++ m').
Proof.
  intros rt rd rp pt st files w.
  destruct files as [|f rest].
  - split; [do 2 eexists; reflexivity|]. intros m w' H. discriminate H.
  - unfold handleFiles.
    destruct (validateFileForPDF st f); cbn [negb].
    + unfold try_catch, bind, ret.
      destruct (extractText rt rd rp pt f st w) as [[t|e] w1] eqn:E.
      * split; [do 2 eexists; reflexivity|]. intros m w' H. discriminate H.
      * split; [do 2 eexists; reflexivity|]. intros m w' H.
        injection H as <- _.
        assert (He : fst (extractText rt rd rp pt f st w) = Throw e) by (rewrite E; reflexivity).
        destruct (extractText_errors rt rd rp pt f st w e He) as [->|[->|[m' ->]]].
        -- right; left. rewrite size_message_eq. reflexivity.
        -- right; right; left. reflexivity.
        -- right; right; right. exists m'. reflexivity.
    + split; [do 2 eexists; reflexivity|]. intros m w' H.
      injection H as <- _. left; reflexivity.
Qed.

Lemma handleFiles_messages_witness :
  (exists o w', handleFiles no_text no_docx one_page_pdf pt_fails None [big_pdf] w0 = (Ok o, w')) /\
  (forall m w', handleFiles no_text no_docx one_page_pdf pt_fails None [big_pdf] w0 = (Ok (UploadError m), w') ->
     m = pdf_config_message \/ m = "File size must be less than 10 MB" \/
     m = "Please upload a TXT, DOCX, or PDF file" \/
     exists m', m = "Failed to extract text: " ++ m').
Proof.
  exact (handleFiles_messages no_text no_docx one_page_pdf pt_fails None [big_pdf] w0).
Defined.
